(** * Discovery / collaboration scenario: phase scheduling and neighbour topology

    A shallow embedding of [scenarios/discovery_collab_simulation.py].

    - Python [int] is [Z]; [range n] is [seqZ 0 n] (empty for [n <= 0]);
      [%] is the floored modulo [Z.modulo], guarded against a zero divisor.
    - Python [float] is read in two ways.  In the first embedding times are
      exact rationals [Q] (the literals [0.2], [0.3], [2.0] are the
      rationals they denote): it carries the statements on neighbours,
      ports, destinations and the pairing of senders with servers.  Module
      [Binary64] embeds the same methods on IEEE binary64, with rounding,
      infinities, NaN and the exceptions of [int] and [float]: it carries
      the statements on start offsets, packet counts and the outcome of a
      run.
    - The dictionary built by [_find_neighbors] is a [gmap]; the engine's
      application containers are lists, threaded through a state-and-error
      monad together with Python's exceptions.
    - The simulation engine (ns-3) is not part of the program.  What it hands
      back is kept symbolic: a node is named by the container it was taken
      from and its index, an assigned address by the base the address helper
      was given and its rank among the addresses handed out.  Node counts are
      participant counts; what the engine does with a negative one, and
      whether it accepts the values it is handed (a negative packet count, a
      time that is not a number), is not modelled.
    - Printing and logging do not touch the schedule and are left out. *)

From Stdlib Require Import ZArith QArith Qround Lqa Lia String Floats.
From stdpp Require Import base option list list_numbers gmap strings.

Local Open Scope Z_scope.

(** ** Python values and exceptions *)

Inductive exn : Type :=
| ZeroDivisionError   (* [%] or [/] by zero *)
| KeyError            (* subscript of a dictionary at a missing key *)
| IndexError          (* an engine container asked for an absent index *)
| ValueError          (* [int] of a NaN *)
| OverflowError.      (* [int] of an infinity, [float] of too large an integer *)

Inductive result (A : Type) : Type :=
| Ok (a : A)
| Raise (e : exn).
Arguments Ok {A} a.
Arguments Raise {A} e.

(** State-and-error monad: a raised exception keeps the state reached so
    far, as mutation in Python does. *)
Definition SE (S A : Type) : Type := S -> result A * S.

Definition ret {S A} (a : A) : SE S A := fun s => (Ok a, s).

Definition raise {S A} (e : exn) : SE S A := fun s => (Raise e, s).

Definition bind {S A B} (m : SE S A) (k : A -> SE S B) : SE S B :=
  fun s => match m s with
           | (Ok a, s') => k a s'
           | (Raise e, s') => (Raise e, s')
           end.

Definition modify {S} (f : S -> S) : SE S unit := fun s => (Ok tt, f s).

Declare Scope se_scope.
Delimit Scope se_scope with se.
Notation "x <- m ;; k" := (bind m (fun x => k))
  (at level 100, m at next level, right associativity) : se_scope.
Notation "m ;;; k" := (bind m (fun _ => k))
  (at level 100, right associativity) : se_scope.

(** [for x in l: body x] *)
Fixpoint for_each {S A} (l : list A) (body : A -> SE S unit) : SE S unit :=
  match l with
  | [] => ret tt
  | x :: l' => bind (body x) (fun _ => for_each l' body)
  end.

(** [range(n)] *)
Definition range (n : Z) : list Z := seqZ 0 n.

(** [a % b] on integers *)
Definition py_mod {S} (a b : Z) : SE S Z :=
  if decide (b = 0) then raise ZeroDivisionError else ret (a `mod` b).

(** [a / b] on floats read as exact rationals *)
Definition py_truediv {S} (a b : Q) : SE S Q :=
  if Qeq_bool b 0 then raise ZeroDivisionError else ret (a / b)%Q.

(** [int(x)] on a float read as an exact rational: truncation towards
    zero *)
Definition py_int (x : Q) : Z :=
  if Qle_bool 0 x then Qfloor x else Qceiling x.

(** ** SimulationConfig *)

Record SimulationConfig : Type := {
  num_fixed_nodes : Z;
  num_mobile_nodes : Z;
  sim_time : Q;
  distance : Q;
  enable_pcap : bool;
  verbose : bool;
  discovery_start : Q;
  discovery_duration : Q;
  collab_start : Q;
  collab_duration : Q;
  discovery_port : Z;
  collab_base_port : Z;
  discovery_range : Q;
  discovery_interval : Q;
  network_base : string;
  network_mask : string
}.

(** [SimulationConfig.__init__] *)
Definition SimulationConfig_init : SimulationConfig := {|
  num_fixed_nodes := 2;
  num_mobile_nodes := 4;
  sim_time := 100.0;
  distance := 50.0;
  enable_pcap := false;
  verbose := true;
  discovery_start := 2.0;
  discovery_duration := 20.0;
  collab_start := 25.0;
  collab_duration := 70.0;
  discovery_port := 8000;
  collab_base_port := 9000;
  discovery_range := 80.0;
  discovery_interval := 2.0;
  network_base := "10.1.1.0";
  network_mask := "255.255.255.0"
|}.

(** The command line after [argparse] has typed it: a valued option is
    absent or carries its value, a [store_true] flag is present or not. *)
Record CommandLine : Type := {
  opt_numFixed : option Z;
  opt_numMobile : option Z;
  opt_simTime : option Q;
  opt_distance : option Q;
  flag_pcap : bool;
  flag_verbose : bool;
  opt_discoveryDuration : option Q;
  opt_collabDuration : option Q
}.

(** [SimulationConfig.parse_arguments]: every option defaults to the field
    it overwrites; the other fields are left alone. *)
Definition parse_arguments (self : SimulationConfig) (argv : CommandLine)
  : SimulationConfig := {|
  num_fixed_nodes := default (num_fixed_nodes self) (opt_numFixed argv);
  num_mobile_nodes := default (num_mobile_nodes self) (opt_numMobile argv);
  sim_time := default (sim_time self) (opt_simTime argv);
  distance := default (distance self) (opt_distance argv);
  enable_pcap := if flag_pcap argv then true else enable_pcap self;
  verbose := if flag_verbose argv then true else verbose self;
  discovery_start := discovery_start self;
  discovery_duration :=
    default (discovery_duration self) (opt_discoveryDuration argv);
  collab_start := collab_start self;
  collab_duration := default (collab_duration self) (opt_collabDuration argv);
  discovery_port := discovery_port self;
  collab_base_port := collab_base_port self;
  discovery_range := discovery_range self;
  discovery_interval := discovery_interval self;
  network_base := network_base self;
  network_mask := network_mask self
|}.

(** ** Neighbour topology *)

Inductive NodeType : Type := fixed | mobile.

#[global] Instance NodeType_eq_dec : EqDecision NodeType.
Proof. solve_decision. Defined.

#[global] Instance NodeType_countable : Countable NodeType.
Proof.
  refine (inj_countable' (fun t => match t with fixed => false | mobile => true end)
                         (fun b => if b then mobile else fixed) _).
  by intros [].
Defined.

(** [neighbors[k] = v] *)
Definition dict_set {K V} `{Countable K} (k : K) (v : V) : SE (gmap K V) unit :=
  modify (insert k v).

(** [neighbors[k].append(x)] *)
Definition dict_append {K V} `{Countable K} (k : K) (x : V)
  : SE (gmap K (list V)) unit :=
  fun d => match d !! k with
           | Some l => (Ok tt, <[k := l ++ [x]]> d)
           | None => (Raise KeyError, d)
           end.

Local Open Scope se_scope.

(** [CollaborationPhaseManager._find_neighbors]: the statements of the
    method, run on the local dictionary [neighbors]. *)
Definition find_neighbors_body (config : SimulationConfig)
  : SE (gmap (NodeType * Z) (list (Z * NodeType))) unit :=
  for_each (range (num_fixed_nodes config)) (fun i =>
    dict_set (fixed, i) [] ;;;
    for_each (range (num_fixed_nodes config)) (fun j =>
      if decide (i ≠ j ∧ Z.abs (i - j) ≤ 1)
      then dict_append (fixed, i) (j, fixed)
      else ret tt) ;;;
    for_each (range (Z.min 2 (num_mobile_nodes config))) (fun j =>
      dict_append (fixed, i) (j, mobile))) ;;;
  for_each (range (num_mobile_nodes config)) (fun i =>
    dict_set (mobile, i) [] ;;;
    fixed_neighbor <- py_mod i (num_fixed_nodes config) ;;
    dict_append (mobile, i) (fixed_neighbor, fixed) ;;;
    next_mobile <- py_mod (i + 1) (num_mobile_nodes config) ;;
    if decide (next_mobile ≠ i)
    then dict_append (mobile, i) (next_mobile, mobile)
    else ret tt).

Definition _find_neighbors (config : SimulationConfig)
  : result (gmap (NodeType * Z) (list (Z * NodeType))) :=
  match find_neighbors_body config ∅ with
  | (Ok _, neighbors) => Ok neighbors
  | (Raise e, _) => Raise e
  end.

(** ** What the engine hands back *)

(** [node_manager.get_fixed_nodes().Get(i)] / [get_mobile_nodes().Get(i)] *)
Inductive Node : Type := NodeGet (container : NodeType) (i : Z).

Inductive Ipv4Address : Type :=
| Ipv4Address_of (dotted : string)
    (* [ns.Ipv4Address("...")] *)
| Ipv4Assigned (base mask : string) (rank : Z).
    (* the address of rank [rank] handed out by an address helper whose
       base was set to [base] / [mask] *)

(** [ns.InetSocketAddress(addr, port)] *)
Record InetSocketAddress : Type := {
  sock_addr : Ipv4Address;
  sock_port : Z
}.

(** An installed echo server with its start and stop times. *)
Record UdpEchoServer : Type := {
  server_node : Node;
  server_port : Z;
  server_start : Q;
  server_stop : Q
}.

(** An installed echo client with its attributes and its times. *)
Record UdpEchoClient : Type := {
  client_node : Node;
  client_remote : InetSocketAddress;
  MaxPackets : Z;
  Interval : Q;
  PacketSize : Z;
  client_start : Q;
  client_stop : Q
}.

(** [interfaces.GetAddress(i)] on an interface container *)
Definition GetAddress {S} (interfaces : list Ipv4Address) (i : Z)
  : SE S Ipv4Address :=
  if decide (i < 0) then raise IndexError
  else match interfaces !! Z.to_nat i with
       | Some a => ret a
       | None => raise IndexError
       end.

(** [NetworkStackConfigurator.assign_ip_addresses]: one helper, based at
    the configured network, serves the fixed devices and then the mobile
    ones. *)
Definition assign_ip_addresses (config : SimulationConfig)
  : list Ipv4Address * list Ipv4Address :=
  let address := Ipv4Assigned (network_base config) (network_mask config) in
  let fixed_interfaces := address <$> range (num_fixed_nodes config) in
  let handed_out := Z.of_nat (length fixed_interfaces) in
  let mobile_interfaces :=
    (fun i => address (handed_out + i)) <$> range (num_mobile_nodes config) in
  (fixed_interfaces, mobile_interfaces).

(** ** DiscoveryPhaseManager *)

Record DiscoveryPhaseManager : Type := {
  discovery_servers : list UdpEchoServer;
  discovery_clients : list UdpEchoClient
}.

(** [DiscoveryPhaseManager.__init__] *)
Definition DiscoveryPhaseManager_init : DiscoveryPhaseManager :=
  {| discovery_servers := []; discovery_clients := [] |}.

Definition discovery_servers_Add (app : UdpEchoServer)
  : SE DiscoveryPhaseManager unit :=
  modify (fun self => {| discovery_servers := discovery_servers self ++ [app];
                         discovery_clients := discovery_clients self |}).

Definition discovery_clients_Add (app : UdpEchoClient)
  : SE DiscoveryPhaseManager unit :=
  modify (fun self => {| discovery_servers := discovery_servers self;
                         discovery_clients := discovery_clients self ++ [app] |}).

(** [DiscoveryPhaseManager._create_discovery_server] *)
Definition _create_discovery_server (config : SimulationConfig)
    (node : Node) (address : Ipv4Address) : SE DiscoveryPhaseManager unit :=
  discovery_servers_Add
    {| server_node := node;
       server_port := discovery_port config;
       server_start := discovery_start config;
       server_stop := (discovery_start config + discovery_duration config)%Q |}.

(** [DiscoveryPhaseManager._create_discovery_client] *)
Definition _create_discovery_client (config : SimulationConfig)
    (node : Node) (all_addresses : list Ipv4Address) (start_time : Q)
  : SE DiscoveryPhaseManager unit :=
  let broadcast_addr := Ipv4Address_of "10.1.1.255" in
  let remote_address :=
    {| sock_addr := broadcast_addr; sock_port := discovery_port config |} in
  packets <- py_truediv (discovery_duration config) (discovery_interval config) ;;
  discovery_clients_Add
    {| client_node := node;
       client_remote := remote_address;
       MaxPackets := py_int packets;
       Interval := discovery_interval config;
       PacketSize := 128;
       client_start := start_time;
       client_stop := (discovery_start config + discovery_duration config)%Q |}.

(** [all_addresses = []; for i in l: all_addresses.append(f(i))] *)
Fixpoint collect {S A B} (l : list A) (f : A -> SE S B) : SE S (list B) :=
  match l with
  | [] => ret []
  | x :: l' => y <- f x ;; ys <- collect l' f ;; ret (y :: ys)
  end.

(** [DiscoveryPhaseManager.setup_discovery_phase] *)
Definition setup_discovery_phase (config : SimulationConfig)
    (fixed_interfaces mobile_interfaces : list Ipv4Address)
  : SE DiscoveryPhaseManager unit :=
  for_each (range (num_fixed_nodes config)) (fun i =>
    let node := NodeGet fixed i in
    addr <- GetAddress fixed_interfaces i ;;
    _create_discovery_server config node addr) ;;;
  for_each (range (num_mobile_nodes config)) (fun i =>
    let node := NodeGet mobile i in
    addr <- GetAddress mobile_interfaces i ;;
    _create_discovery_server config node addr) ;;;
  fixed_addresses <- collect (range (num_fixed_nodes config))
                       (GetAddress fixed_interfaces) ;;
  mobile_addresses <- collect (range (num_mobile_nodes config))
                        (GetAddress mobile_interfaces) ;;
  let all_addresses := fixed_addresses ++ mobile_addresses in
  for_each (range (num_fixed_nodes config)) (fun i =>
    let node := NodeGet fixed i in
    _create_discovery_client config node all_addresses
      (discovery_start config + inject_Z i * 0.2)%Q) ;;;
  for_each (range (num_mobile_nodes config)) (fun i =>
    let node := NodeGet mobile i in
    _create_discovery_client config node all_addresses
      (discovery_start config
       + inject_Z (num_fixed_nodes config + i) * 0.2)%Q).

(** ** CollaborationPhaseManager *)

Record CollaborationPhaseManager : Type := {
  collab_servers : list UdpEchoServer;
  collab_clients : list UdpEchoClient
}.

(** [CollaborationPhaseManager.__init__] *)
Definition CollaborationPhaseManager_init : CollaborationPhaseManager :=
  {| collab_servers := []; collab_clients := [] |}.

Definition collab_servers_Add (app : UdpEchoServer)
  : SE CollaborationPhaseManager unit :=
  modify (fun self => {| collab_servers := collab_servers self ++ [app];
                         collab_clients := collab_clients self |}).

Definition collab_clients_Add (app : UdpEchoClient)
  : SE CollaborationPhaseManager unit :=
  modify (fun self => {| collab_servers := collab_servers self;
                         collab_clients := collab_clients self ++ [app] |}).

(** [CollaborationPhaseManager._create_collab_server] *)
Definition _create_collab_server (config : SimulationConfig)
    (node : Node) (port : Z) (address : Ipv4Address)
  : SE CollaborationPhaseManager unit :=
  collab_servers_Add
    {| server_node := node;
       server_port := port;
       server_start := collab_start config;
       server_stop := (collab_start config + collab_duration config)%Q |}.

(** [CollaborationPhaseManager._create_collab_client] *)
Definition _create_collab_client (config : SimulationConfig)
    (node : Node) (target_addr : Ipv4Address) (target_port : Z) (start_time : Q)
  : SE CollaborationPhaseManager unit :=
  let remote_address :=
    {| sock_addr := target_addr; sock_port := target_port |} in
  collab_clients_Add
    {| client_node := node;
       client_remote := remote_address;
       MaxPackets := 10000;
       Interval := 1.0;
       PacketSize := 1024;
       client_start := start_time;
       client_stop := (collab_start config + collab_duration config)%Q |}.

(** The call [self._find_neighbors()] inside a method of the manager. *)
Definition call_find_neighbors {S} (config : SimulationConfig)
  : SE S (gmap (NodeType * Z) (list (Z * NodeType))) :=
  match _find_neighbors config with
  | Ok neighbors => ret neighbors
  | Raise e => raise e
  end.

(** [CollaborationPhaseManager._setup_collab_connections] *)
Definition _setup_collab_connections (config : SimulationConfig)
    (fixed_interfaces mobile_interfaces : list Ipv4Address)
  : SE CollaborationPhaseManager unit :=
  neighbors <- call_find_neighbors config ;;
  for_each (range (num_fixed_nodes config)) (fun i =>
    let node := NodeGet fixed i in
    for_each (default [] (neighbors !! (fixed, i)))
      (fun '(neighbor_idx, neighbor_type) =>
         match neighbor_type with
         | fixed =>
             target_addr <- GetAddress fixed_interfaces neighbor_idx ;;
             let target_port := collab_base_port config + neighbor_idx in
             _create_collab_client config node target_addr target_port
               (collab_start config + inject_Z i * 0.3)%Q
         | mobile =>
             target_addr <- GetAddress mobile_interfaces neighbor_idx ;;
             let target_port :=
               collab_base_port config + num_fixed_nodes config + neighbor_idx in
             _create_collab_client config node target_addr target_port
               (collab_start config + inject_Z i * 0.3)%Q
         end)) ;;;
  for_each (range (num_mobile_nodes config)) (fun i =>
    let node := NodeGet mobile i in
    for_each (default [] (neighbors !! (mobile, i)))
      (fun '(neighbor_idx, neighbor_type) =>
         match neighbor_type with
         | fixed =>
             target_addr <- GetAddress fixed_interfaces neighbor_idx ;;
             let target_port := collab_base_port config + neighbor_idx in
             _create_collab_client config node target_addr target_port
               (collab_start config
                + inject_Z (num_fixed_nodes config + i) * 0.3)%Q
         | mobile =>
             target_addr <- GetAddress mobile_interfaces neighbor_idx ;;
             let target_port :=
               collab_base_port config + num_fixed_nodes config + neighbor_idx in
             _create_collab_client config node target_addr target_port
               (collab_start config
                + inject_Z (num_fixed_nodes config + i) * 0.3)%Q
         end)).

(** [CollaborationPhaseManager.setup_collaboration_phase] *)
Definition setup_collaboration_phase (config : SimulationConfig)
    (fixed_interfaces mobile_interfaces : list Ipv4Address)
  : SE CollaborationPhaseManager unit :=
  for_each (range (num_fixed_nodes config)) (fun i =>
    let node := NodeGet fixed i in
    addr <- GetAddress fixed_interfaces i ;;
    let port := collab_base_port config + i in
    _create_collab_server config node port addr) ;;;
  for_each (range (num_mobile_nodes config)) (fun i =>
    let node := NodeGet mobile i in
    addr <- GetAddress mobile_interfaces i ;;
    let port := collab_base_port config + num_fixed_nodes config + i in
    _create_collab_server config node port addr) ;;;
  _setup_collab_connections config fixed_interfaces mobile_interfaces.

(** ** Simulation *)

Record Simulation : Type := {
  config : SimulationConfig;
  discovery_manager : DiscoveryPhaseManager;
  collab_manager : CollaborationPhaseManager
}.

(** Run a method of one manager on the simulation that owns it. *)
Definition on_discovery {A} (m : SE DiscoveryPhaseManager A) : SE Simulation A :=
  fun self =>
    let (r, d) := m (discovery_manager self) in
    (r, {| config := config self;
           discovery_manager := d;
           collab_manager := collab_manager self |}).

Definition on_collab {A} (m : SE CollaborationPhaseManager A) : SE Simulation A :=
  fun self =>
    let (r, c) := m (collab_manager self) in
    (r, {| config := config self;
           discovery_manager := discovery_manager self;
           collab_manager := c |}).

(** [Simulation.setup]: the steps that schedule applications. *)
Definition setup : SE Simulation unit :=
  fun self =>
    let (fixed_intf, mobile_intf) := assign_ip_addresses (config self) in
    (on_discovery (setup_discovery_phase (config self) fixed_intf mobile_intf) ;;;
     on_collab (setup_collaboration_phase (config self) fixed_intf mobile_intf))
      self.

(** ** Participants, adjacency and offsets as the specification words them *)

(** Fixed participants by ascending index, then mobile ones. *)
Definition allParticipants (F M : Z) : list (NodeType * Z) :=
  (pair fixed <$> range F) ++ (pair mobile <$> range M).

(** Rank of a participant in [allParticipants]. *)
Definition globalIndex (F : Z) (p : NodeType * Z) : Z :=
  match p with
  | (fixed, i) => i
  | (mobile, i) => F + i
  end.

Definition node_of (p : NodeType * Z) : Node := NodeGet p.1 p.2.

(** [adjacent F M p q]: participant [q] is a neighbour of participant [p]. *)
Definition adjacent (F M : Z) (p q : NodeType * Z) : Prop :=
  match p, q with
  | (fixed, i), (fixed, j) => 0 ≤ j < F ∧ i ≠ j ∧ Z.abs (i - j) ≤ 1
  | (fixed, i), (mobile, j) => 0 ≤ j < Z.min 2 M
  | (mobile, i), (fixed, j) => j = i `mod` F
  | (mobile, i), (mobile, j) => j = (i + 1) `mod` M ∧ j ≠ i
  end.

(** The endpoint of participant [q]: the address the helper assigned to it
    and the port of its collaboration server. *)
Definition collab_endpoint (cfg : SimulationConfig) (q : NodeType * Z)
  : InetSocketAddress :=
  {| sock_addr := Ipv4Assigned (network_base cfg) (network_mask cfg)
                    (globalIndex (num_fixed_nodes cfg) q);
     sock_port := collab_base_port cfg + globalIndex (num_fixed_nodes cfg) q |}.

(** The offset rule of the scheduler as the specification words it:
    [window.start + index * perParticipantSpacing]. *)
Definition scheduleWindow (start spacing : Q) (index : Z) : Q :=
  (start + inject_Z index * spacing)%Q.

(** ** Closed forms of what the loops build *)

Abbreviation dict := (gmap (NodeType * Z) (list (Z * NodeType))).

(** The list stored for fixed node [i]. *)
Definition fixed_row (F M i : Z) : list (Z * NodeType) :=
  ((fun j => (j, fixed)) <$> filter (fun j => i ≠ j ∧ Z.abs (i - j) ≤ 1) (range F))
  ++ ((fun j => (j, mobile)) <$> range (Z.min 2 M)).

(** The list stored for mobile node [i]. *)
Definition mobile_row (F M i : Z) : list (Z * NodeType) :=
  (i `mod` F, fixed)
  :: (if decide ((i + 1) `mod` M ≠ i) then [((i + 1) `mod` M, mobile)] else []).

Definition topology (F M : Z) : dict :=
  foldl (fun d i => <[(mobile, i) := mobile_row F M i]> d)
    (foldl (fun d i => <[(fixed, i) := fixed_row F M i]> d) ∅ (range F))
    (range M).

Definition discovery_server_of (cfg : SimulationConfig) (p : NodeType * Z)
  : UdpEchoServer :=
  {| server_node := node_of p;
     server_port := discovery_port cfg;
     server_start := discovery_start cfg;
     server_stop := (discovery_start cfg + discovery_duration cfg)%Q |}.

Definition discovery_client_of (cfg : SimulationConfig) (p : NodeType * Z)
  : UdpEchoClient :=
  {| client_node := node_of p;
     client_remote := {| sock_addr := Ipv4Address_of "10.1.1.255";
                         sock_port := discovery_port cfg |};
     MaxPackets := py_int (discovery_duration cfg / discovery_interval cfg)%Q;
     Interval := discovery_interval cfg;
     PacketSize := 128;
     client_start :=
       (discovery_start cfg
        + inject_Z (globalIndex (num_fixed_nodes cfg) p) * 0.2)%Q;
     client_stop := (discovery_start cfg + discovery_duration cfg)%Q |}.

Definition add_discovery_servers (apps : list UdpEchoServer)
    (self : DiscoveryPhaseManager) : DiscoveryPhaseManager :=
  {| discovery_servers := discovery_servers self ++ apps;
     discovery_clients := discovery_clients self |}.

Definition add_discovery_clients (apps : list UdpEchoClient)
    (self : DiscoveryPhaseManager) : DiscoveryPhaseManager :=
  {| discovery_servers := discovery_servers self;
     discovery_clients := discovery_clients self ++ apps |}.

(** The port a participant's collaboration server listens on. *)
Definition collab_port (cfg : SimulationConfig) (p : NodeType * Z) : Z :=
  match p with
  | (fixed, i) => collab_base_port cfg + i
  | (mobile, i) => collab_base_port cfg + num_fixed_nodes cfg + i
  end.

Definition collab_server_of (cfg : SimulationConfig) (p : NodeType * Z)
  : UdpEchoServer :=
  {| server_node := node_of p;
     server_port := collab_port cfg p;
     server_start := collab_start cfg;
     server_stop := (collab_start cfg + collab_duration cfg)%Q |}.

#[global] Instance Ipv4Address_inhabited : Inhabited Ipv4Address :=
  populate (Ipv4Address_of "").

(** The interface address of a neighbour entry. *)
Definition address_of (fi mi : list Ipv4Address) (q : Z * NodeType)
  : Ipv4Address :=
  match q.2 with fixed => fi | mobile => mi end !!! Z.to_nat q.1.

Definition collab_client (cfg : SimulationConfig) (fi mi : list Ipv4Address)
    (node : Node) (start_time : Q) (q : Z * NodeType) : UdpEchoClient :=
  {| client_node := node;
     client_remote := {| sock_addr := address_of fi mi q;
                         sock_port := collab_port cfg (q.2, q.1) |};
     MaxPackets := 10000;
     Interval := 1.0;
     PacketSize := 1024;
     client_start := start_time;
     client_stop := (collab_start cfg + collab_duration cfg)%Q |}.

(** A participant's offset in the collaboration window. *)
Definition collab_offset (cfg : SimulationConfig) (p : NodeType * Z) : Q :=
  (collab_start cfg + inject_Z (globalIndex (num_fixed_nodes cfg) p) * 0.3)%Q.

(** The sender installed on [p] for its edge to [q]. *)
Definition collab_client_of (cfg : SimulationConfig) (fi mi : list Ipv4Address)
    (p : NodeType * Z) (q : Z * NodeType) : UdpEchoClient :=
  collab_client cfg fi mi (node_of p) (collab_offset cfg p) q.

(** The neighbour entries the connection loops read for [p]. *)
Definition edges_from (F M : Z) (p : NodeType * Z) : list (Z * NodeType) :=
  default [] (topology F M !! p).

Definition add_collab_servers (apps : list UdpEchoServer)
    (self : CollaborationPhaseManager) : CollaborationPhaseManager :=
  {| collab_servers := collab_servers self ++ apps;
     collab_clients := collab_clients self |}.

Definition add_collab_clients (apps : list UdpEchoClient)
    (self : CollaborationPhaseManager) : CollaborationPhaseManager :=
  {| collab_servers := collab_servers self;
     collab_clients := collab_clients self ++ apps |}.

Definition resolvable (fi mi : list Ipv4Address) (q : Z * NodeType) : Prop :=
  0 ≤ q.1 ∧ (Z.to_nat q.1 < length (match q.2 with fixed => fi | mobile => mi end))%nat.

(** The senders of the whole topology, source by source. *)
Definition collab_clients_of (cfg : SimulationConfig) (fi mi : list Ipv4Address)
  : list UdpEchoClient :=
  let F := num_fixed_nodes cfg in
  let M := num_mobile_nodes cfg in
  concat ((fun p => collab_client_of cfg fi mi p <$> edges_from F M p)
            <$> allParticipants F M).

(** ** Sample command lines and configurations *)

(** The command line [--numFixed 0 --numMobile 1]. *)
Definition argv_no_fixed : CommandLine := {|
  opt_numFixed := Some 0; opt_numMobile := Some 1; opt_simTime := None;
  opt_distance := None; flag_pcap := false; flag_verbose := false;
  opt_discoveryDuration := None; opt_collabDuration := None |}.

(** The command line [--numFixed 1 --numMobile 0]. *)
Definition argv_no_mobile : CommandLine := {|
  opt_numFixed := Some 1; opt_numMobile := Some 0; opt_simTime := None;
  opt_distance := None; flag_pcap := false; flag_verbose := false;
  opt_discoveryDuration := None; opt_collabDuration := None |}.


(** A simulation about to be set up with configuration [cfg]. *)
Definition Simulation_with (cfg : SimulationConfig) : Simulation :=
  {| config := cfg;
     discovery_manager := DiscoveryPhaseManager_init;
     collab_manager := CollaborationPhaseManager_init |}.

(** The configuration [cfg] with another repetition interval. *)
Definition with_discovery_interval (cfg : SimulationConfig) (interval : Q)
  : SimulationConfig := {|
  num_fixed_nodes := num_fixed_nodes cfg;
  num_mobile_nodes := num_mobile_nodes cfg;
  sim_time := sim_time cfg;
  distance := distance cfg;
  enable_pcap := enable_pcap cfg;
  verbose := verbose cfg;
  discovery_start := discovery_start cfg;
  discovery_duration := discovery_duration cfg;
  collab_start := collab_start cfg;
  collab_duration := collab_duration cfg;
  discovery_port := discovery_port cfg;
  collab_base_port := collab_base_port cfg;
  discovery_range := discovery_range cfg;
  discovery_interval := interval;
  network_base := network_base cfg;
  network_mask := network_mask cfg
|}.

(** The command line with no option at all. *)
Definition argv_empty : CommandLine := {|
  opt_numFixed := None; opt_numMobile := None; opt_simTime := None;
  opt_distance := None; flag_pcap := false; flag_verbose := false;
  opt_discoveryDuration := None; opt_collabDuration := None |}.

(** [sum(f(i) for i in l)] *)
Definition sumZ (f : Z -> Z) (l : list Z) : Z :=
  foldr (fun i acc => f i + acc) 0 l.

(** * The scheduling code on binary64

    The same methods with Python's [float] read as IEEE binary64, the
    kernel's primitive floats: every [+], [*] and [/] rounds to nearest, a
    literal is the nearest binary64 value, a command-line number may be a
    NaN or an infinity, [int] of such a number raises, and so does [float]
    of an integer beyond the binary64 range. *)

#[local] Set Warnings "-inexact-float".

Module Binary64.

(** A Python expression that may raise, computed from values alone. *)
Definition lift {S A} (r : result A) : SE S A :=
  match r with
  | Ok a => ret a
  | Raise e => raise e
  end.

(** The integers [float] accepts: below [2^1024 - 2^970] in magnitude the
    nearest binary64 value is finite. *)
Definition float_int_limit : Z := 2 ^ 1024 - 2 ^ 970.

(** The binary64 value nearest to an integer (ties to even). *)
Definition Z2float (i : Z) : float :=
  SF2Prim (binary_normalize prec emax i 0 false).

(** [float(i)] *)
Definition float_of_int (i : Z) : result float :=
  if decide (Z.abs i < float_int_limit) then Ok (Z2float i)
  else Raise OverflowError.

(** [i * x] for an integer [i] and a float [x] *)
Definition py_mul_int (i : Z) (x : float) : result float :=
  match float_of_int i with
  | Ok f => Ok (f * x)%float
  | Raise e => Raise e
  end.

(** [a / b] on floats *)
Definition py_truediv (a b : float) : result float :=
  if (b =? 0)%float then Raise ZeroDivisionError else Ok (a / b)%float.

(** The rational a finite binary64 number denotes (0 for the others). *)
Definition value (x : float) : Q :=
  match Prim2SF x with
  | S754_finite s m e =>
      (inject_Z (if s then Z.neg m else Z.pos m) * Qpower 2 e)%Q
  | _ => 0%Q
  end.

(** [int(x)] on a float: the value truncated towards zero; a NaN and the
    infinities have none. *)
Definition py_int (x : float) : result Z :=
  match Prim2SF x with
  | S754_nan => Raise ValueError
  | S754_infinity _ => Raise OverflowError
  | _ => Ok (if Qle_bool 0 (value x) then Qfloor (value x)
             else Qceiling (value x))
  end.

Record SimulationConfig : Type := {
  num_fixed_nodes : Z;
  num_mobile_nodes : Z;
  sim_time : float;
  distance : float;
  enable_pcap : bool;
  verbose : bool;
  discovery_start : float;
  discovery_duration : float;
  collab_start : float;
  collab_duration : float;
  discovery_port : Z;
  collab_base_port : Z;
  discovery_range : float;
  discovery_interval : float;
  network_base : string;
  network_mask : string
}.

(** [SimulationConfig.__init__] *)
Definition SimulationConfig_init : SimulationConfig := {|
  num_fixed_nodes := 2;
  num_mobile_nodes := 4;
  sim_time := 100.0;
  distance := 50.0;
  enable_pcap := false;
  verbose := true;
  discovery_start := 2.0;
  discovery_duration := 20.0;
  collab_start := 25.0;
  collab_duration := 70.0;
  discovery_port := 8000;
  collab_base_port := 9000;
  discovery_range := 80.0;
  discovery_interval := 2.0;
  network_base := "10.1.1.0";
  network_mask := "255.255.255.0"
|}.

(** The command line after [argparse] has typed it; [type=float] accepts
    every binary64 value, NaN and the infinities included. *)
Record CommandLine : Type := {
  opt_numFixed : option Z;
  opt_numMobile : option Z;
  opt_simTime : option float;
  opt_distance : option float;
  flag_pcap : bool;
  flag_verbose : bool;
  opt_discoveryDuration : option float;
  opt_collabDuration : option float
}.

(** [SimulationConfig.parse_arguments] *)
Definition parse_arguments (self : SimulationConfig) (argv : CommandLine)
  : SimulationConfig := {|
  num_fixed_nodes := default (num_fixed_nodes self) (opt_numFixed argv);
  num_mobile_nodes := default (num_mobile_nodes self) (opt_numMobile argv);
  sim_time := default (sim_time self) (opt_simTime argv);
  distance := default (distance self) (opt_distance argv);
  enable_pcap := if flag_pcap argv then true else enable_pcap self;
  verbose := if flag_verbose argv then true else verbose self;
  discovery_start := discovery_start self;
  discovery_duration :=
    default (discovery_duration self) (opt_discoveryDuration argv);
  collab_start := collab_start self;
  collab_duration := default (collab_duration self) (opt_collabDuration argv);
  discovery_port := discovery_port self;
  collab_base_port := collab_base_port self;
  discovery_range := discovery_range self;
  discovery_interval := discovery_interval self;
  network_base := network_base self;
  network_mask := network_mask self
|}.

(** [CollaborationPhaseManager._find_neighbors] *)
Definition find_neighbors_body (config : SimulationConfig)
  : SE (gmap (NodeType * Z) (list (Z * NodeType))) unit :=
  for_each (range (num_fixed_nodes config)) (fun i =>
    dict_set (fixed, i) [] ;;;
    for_each (range (num_fixed_nodes config)) (fun j =>
      if decide (i ≠ j ∧ Z.abs (i - j) ≤ 1)
      then dict_append (fixed, i) (j, fixed)
      else ret tt) ;;;
    for_each (range (Z.min 2 (num_mobile_nodes config))) (fun j =>
      dict_append (fixed, i) (j, mobile))) ;;;
  for_each (range (num_mobile_nodes config)) (fun i =>
    dict_set (mobile, i) [] ;;;
    fixed_neighbor <- py_mod i (num_fixed_nodes config) ;;
    dict_append (mobile, i) (fixed_neighbor, fixed) ;;;
    next_mobile <- py_mod (i + 1) (num_mobile_nodes config) ;;
    if decide (next_mobile ≠ i)
    then dict_append (mobile, i) (next_mobile, mobile)
    else ret tt).

Definition _find_neighbors (config : SimulationConfig)
  : result (gmap (NodeType * Z) (list (Z * NodeType))) :=
  match find_neighbors_body config ∅ with
  | (Ok _, neighbors) => Ok neighbors
  | (Raise e, _) => Raise e
  end.

(** An installed echo server with its start and stop times. *)
Record UdpEchoServer : Type := {
  server_node : Node;
  server_port : Z;
  server_start : float;
  server_stop : float
}.

(** An installed echo client with its attributes and its times. *)
Record UdpEchoClient : Type := {
  client_node : Node;
  client_remote : InetSocketAddress;
  MaxPackets : Z;
  Interval : float;
  PacketSize : Z;
  client_start : float;
  client_stop : float
}.

(** [NetworkStackConfigurator.assign_ip_addresses] *)
Definition assign_ip_addresses (config : SimulationConfig)
  : list Ipv4Address * list Ipv4Address :=
  let address := Ipv4Assigned (network_base config) (network_mask config) in
  let fixed_interfaces := address <$> range (num_fixed_nodes config) in
  let handed_out := Z.of_nat (length fixed_interfaces) in
  let mobile_interfaces :=
    (fun i => address (handed_out + i)) <$> range (num_mobile_nodes config) in
  (fixed_interfaces, mobile_interfaces).

Record DiscoveryPhaseManager : Type := {
  discovery_servers : list UdpEchoServer;
  discovery_clients : list UdpEchoClient
}.

(** [DiscoveryPhaseManager.__init__] *)
Definition DiscoveryPhaseManager_init : DiscoveryPhaseManager :=
  {| discovery_servers := []; discovery_clients := [] |}.

Definition discovery_servers_Add (app : UdpEchoServer)
  : SE DiscoveryPhaseManager unit :=
  modify (fun self => {| discovery_servers := discovery_servers self ++ [app];
                         discovery_clients := discovery_clients self |}).

Definition discovery_clients_Add (app : UdpEchoClient)
  : SE DiscoveryPhaseManager unit :=
  modify (fun self => {| discovery_servers := discovery_servers self;
                         discovery_clients := discovery_clients self ++ [app] |}).

(** [DiscoveryPhaseManager._create_discovery_server] *)
Definition _create_discovery_server (config : SimulationConfig)
    (node : Node) (address : Ipv4Address) : SE DiscoveryPhaseManager unit :=
  discovery_servers_Add
    {| server_node := node;
       server_port := discovery_port config;
       server_start := discovery_start config;
       server_stop := (discovery_start config + discovery_duration config)%float |}.

(** [DiscoveryPhaseManager._create_discovery_client] *)
Definition _create_discovery_client (config : SimulationConfig)
    (node : Node) (all_addresses : list Ipv4Address) (start_time : float)
  : SE DiscoveryPhaseManager unit :=
  let broadcast_addr := Ipv4Address_of "10.1.1.255" in
  let remote_address :=
    {| sock_addr := broadcast_addr; sock_port := discovery_port config |} in
  quotient <- lift (py_truediv (discovery_duration config)
                      (discovery_interval config)) ;;
  packets <- lift (py_int quotient) ;;
  discovery_clients_Add
    {| client_node := node;
       client_remote := remote_address;
       MaxPackets := packets;
       Interval := discovery_interval config;
       PacketSize := 128;
       client_start := start_time;
       client_stop := (discovery_start config + discovery_duration config)%float |}.

(** [DiscoveryPhaseManager.setup_discovery_phase] *)
Definition setup_discovery_phase (config : SimulationConfig)
    (fixed_interfaces mobile_interfaces : list Ipv4Address)
  : SE DiscoveryPhaseManager unit :=
  for_each (range (num_fixed_nodes config)) (fun i =>
    let node := NodeGet fixed i in
    addr <- GetAddress fixed_interfaces i ;;
    _create_discovery_server config node addr) ;;;
  for_each (range (num_mobile_nodes config)) (fun i =>
    let node := NodeGet mobile i in
    addr <- GetAddress mobile_interfaces i ;;
    _create_discovery_server config node addr) ;;;
  fixed_addresses <- collect (range (num_fixed_nodes config))
                       (GetAddress fixed_interfaces) ;;
  mobile_addresses <- collect (range (num_mobile_nodes config))
                        (GetAddress mobile_interfaces) ;;
  let all_addresses := fixed_addresses ++ mobile_addresses in
  for_each (range (num_fixed_nodes config)) (fun i =>
    let node := NodeGet fixed i in
    offset <- lift (py_mul_int i 0.2) ;;
    _create_discovery_client config node all_addresses
      (discovery_start config + offset)%float) ;;;
  for_each (range (num_mobile_nodes config)) (fun i =>
    let node := NodeGet mobile i in
    offset <- lift (py_mul_int (num_fixed_nodes config + i) 0.2) ;;
    _create_discovery_client config node all_addresses
      (discovery_start config + offset)%float).

Record CollaborationPhaseManager : Type := {
  collab_servers : list UdpEchoServer;
  collab_clients : list UdpEchoClient
}.

(** [CollaborationPhaseManager.__init__] *)
Definition CollaborationPhaseManager_init : CollaborationPhaseManager :=
  {| collab_servers := []; collab_clients := [] |}.

Definition collab_servers_Add (app : UdpEchoServer)
  : SE CollaborationPhaseManager unit :=
  modify (fun self => {| collab_servers := collab_servers self ++ [app];
                         collab_clients := collab_clients self |}).

Definition collab_clients_Add (app : UdpEchoClient)
  : SE CollaborationPhaseManager unit :=
  modify (fun self => {| collab_servers := collab_servers self;
                         collab_clients := collab_clients self ++ [app] |}).

(** [CollaborationPhaseManager._create_collab_server] *)
Definition _create_collab_server (config : SimulationConfig)
    (node : Node) (port : Z) (address : Ipv4Address)
  : SE CollaborationPhaseManager unit :=
  collab_servers_Add
    {| server_node := node;
       server_port := port;
       server_start := collab_start config;
       server_stop := (collab_start config + collab_duration config)%float |}.

(** [CollaborationPhaseManager._create_collab_client] *)
Definition _create_collab_client (config : SimulationConfig)
    (node : Node) (target_addr : Ipv4Address) (target_port : Z)
    (start_time : float)
  : SE CollaborationPhaseManager unit :=
  let remote_address :=
    {| sock_addr := target_addr; sock_port := target_port |} in
  collab_clients_Add
    {| client_node := node;
       client_remote := remote_address;
       MaxPackets := 10000;
       Interval := 1.0;
       PacketSize := 1024;
       client_start := start_time;
       client_stop := (collab_start config + collab_duration config)%float |}.

(** [CollaborationPhaseManager._setup_collab_connections] *)
Definition _setup_collab_connections (config : SimulationConfig)
    (fixed_interfaces mobile_interfaces : list Ipv4Address)
  : SE CollaborationPhaseManager unit :=
  neighbors <- lift (_find_neighbors config) ;;
  for_each (range (num_fixed_nodes config)) (fun i =>
    let node := NodeGet fixed i in
    for_each (default [] (neighbors !! (fixed, i)))
      (fun '(neighbor_idx, neighbor_type) =>
         match neighbor_type with
         | fixed =>
             target_addr <- GetAddress fixed_interfaces neighbor_idx ;;
             let target_port := collab_base_port config + neighbor_idx in
             offset <- lift (py_mul_int i 0.3) ;;
             _create_collab_client config node target_addr target_port
               (collab_start config + offset)%float
         | mobile =>
             target_addr <- GetAddress mobile_interfaces neighbor_idx ;;
             let target_port :=
               collab_base_port config + num_fixed_nodes config + neighbor_idx in
             offset <- lift (py_mul_int i 0.3) ;;
             _create_collab_client config node target_addr target_port
               (collab_start config + offset)%float
         end)) ;;;
  for_each (range (num_mobile_nodes config)) (fun i =>
    let node := NodeGet mobile i in
    for_each (default [] (neighbors !! (mobile, i)))
      (fun '(neighbor_idx, neighbor_type) =>
         match neighbor_type with
         | fixed =>
             target_addr <- GetAddress fixed_interfaces neighbor_idx ;;
             let target_port := collab_base_port config + neighbor_idx in
             offset <- lift (py_mul_int (num_fixed_nodes config + i) 0.3) ;;
             _create_collab_client config node target_addr target_port
               (collab_start config + offset)%float
         | mobile =>
             target_addr <- GetAddress mobile_interfaces neighbor_idx ;;
             let target_port :=
               collab_base_port config + num_fixed_nodes config + neighbor_idx in
             offset <- lift (py_mul_int (num_fixed_nodes config + i) 0.3) ;;
             _create_collab_client config node target_addr target_port
               (collab_start config + offset)%float
         end)).

(** [CollaborationPhaseManager.setup_collaboration_phase] *)
Definition setup_collaboration_phase (config : SimulationConfig)
    (fixed_interfaces mobile_interfaces : list Ipv4Address)
  : SE CollaborationPhaseManager unit :=
  for_each (range (num_fixed_nodes config)) (fun i =>
    let node := NodeGet fixed i in
    addr <- GetAddress fixed_interfaces i ;;
    let port := collab_base_port config + i in
    _create_collab_server config node port addr) ;;;
  for_each (range (num_mobile_nodes config)) (fun i =>
    let node := NodeGet mobile i in
    addr <- GetAddress mobile_interfaces i ;;
    let port := collab_base_port config + num_fixed_nodes config + i in
    _create_collab_server config node port addr) ;;;
  _setup_collab_connections config fixed_interfaces mobile_interfaces.

(** [ns.Vector(x, y, z)] *)
Record Vector : Type := {
  vec_x : float;
  vec_y : float;
  vec_z : float
}.

(** [MobilityConfigurator.setup_fixed_mobility]: the positions added, in
    this order, to the position allocator of the fixed nodes. *)
Definition setup_fixed_mobility (config : SimulationConfig)
  : SE (list Vector) unit :=
  for_each (range (num_fixed_nodes config)) (fun i =>
    x <- lift (py_mul_int i (distance config)) ;;
    modify (fun position_alloc =>
              position_alloc ++ [{| vec_x := x; vec_y := 0.0; vec_z := 0.0 |}])).

Record Simulation : Type := {
  config : SimulationConfig;
  fixed_positions : list Vector;
  discovery_manager : DiscoveryPhaseManager;
  collab_manager : CollaborationPhaseManager
}.

(** [Simulation.__init__] followed by [Simulation.initialize] *)
Definition initialize (argv : CommandLine) : Simulation :=
  {| config := parse_arguments SimulationConfig_init argv;
     fixed_positions := [];
     discovery_manager := DiscoveryPhaseManager_init;
     collab_manager := CollaborationPhaseManager_init |}.

Definition on_positions {A} (m : SE (list Vector) A) : SE Simulation A :=
  fun self =>
    let (r, l) := m (fixed_positions self) in
    (r, {| config := config self;
           fixed_positions := l;
           discovery_manager := discovery_manager self;
           collab_manager := collab_manager self |}).

Definition on_discovery {A} (m : SE DiscoveryPhaseManager A) : SE Simulation A :=
  fun self =>
    let (r, d) := m (discovery_manager self) in
    (r, {| config := config self;
           fixed_positions := fixed_positions self;
           discovery_manager := d;
           collab_manager := collab_manager self |}).

Definition on_collab {A} (m : SE CollaborationPhaseManager A) : SE Simulation A :=
  fun self =>
    let (r, c) := m (collab_manager self) in
    (r, {| config := config self;
           fixed_positions := fixed_positions self;
           discovery_manager := discovery_manager self;
           collab_manager := c |}).

(** [Simulation.setup]: the steps that compute positions and schedule
    applications; the others only call the engine. *)
Definition setup : SE Simulation unit :=
  fun self =>
    let (fixed_intf, mobile_intf) := assign_ip_addresses (config self) in
    (on_positions (setup_fixed_mobility (config self)) ;;;
     on_discovery (setup_discovery_phase (config self) fixed_intf mobile_intf) ;;;
     on_collab (setup_collaboration_phase (config self) fixed_intf mobile_intf))
      self.

(** [main]: initialise, then set up. *)
Definition main (argv : CommandLine) : result unit * Simulation :=
  setup (initialize argv).

(** *** Closed forms of what the loops build, and samples *)

(** [int(discovery_duration / discovery_interval)], the packet count every
    discovery sender asks for. *)
Definition packet_count (cfg : SimulationConfig) : result Z :=
  match py_truediv (discovery_duration cfg) (discovery_interval cfg) with
  | Ok quotient => py_int quotient
  | Raise e => Raise e
  end.

Definition discovery_server_of (cfg : SimulationConfig) (p : NodeType * Z)
  : UdpEchoServer :=
  {| server_node := node_of p;
     server_port := discovery_port cfg;
     server_start := discovery_start cfg;
     server_stop := (discovery_start cfg + discovery_duration cfg)%float |}.

(** A participant's offset in the discovery window. *)
Definition discovery_offset (cfg : SimulationConfig) (p : NodeType * Z) : float :=
  (discovery_start cfg
   + Z2float (globalIndex (num_fixed_nodes cfg) p) * 0.2)%float.

Definition discovery_client_of (cfg : SimulationConfig) (packets : Z)
    (p : NodeType * Z) : UdpEchoClient :=
  {| client_node := node_of p;
     client_remote := {| sock_addr := Ipv4Address_of "10.1.1.255";
                         sock_port := discovery_port cfg |};
     MaxPackets := packets;
     Interval := discovery_interval cfg;
     PacketSize := 128;
     client_start := discovery_offset cfg p;
     client_stop := (discovery_start cfg + discovery_duration cfg)%float |}.

Definition add_discovery_servers (apps : list UdpEchoServer)
    (self : DiscoveryPhaseManager) : DiscoveryPhaseManager :=
  {| discovery_servers := discovery_servers self ++ apps;
     discovery_clients := discovery_clients self |}.

Definition add_discovery_clients (apps : list UdpEchoClient)
    (self : DiscoveryPhaseManager) : DiscoveryPhaseManager :=
  {| discovery_servers := discovery_servers self;
     discovery_clients := discovery_clients self ++ apps |}.

Definition collab_port (cfg : SimulationConfig) (p : NodeType * Z) : Z :=
  match p with
  | (fixed, i) => collab_base_port cfg + i
  | (mobile, i) => collab_base_port cfg + num_fixed_nodes cfg + i
  end.

Definition collab_server_of (cfg : SimulationConfig) (p : NodeType * Z)
  : UdpEchoServer :=
  {| server_node := node_of p;
     server_port := collab_port cfg p;
     server_start := collab_start cfg;
     server_stop := (collab_start cfg + collab_duration cfg)%float |}.

Definition collab_client (cfg : SimulationConfig) (fi mi : list Ipv4Address)
    (node : Node) (start_time : float) (q : Z * NodeType) : UdpEchoClient :=
  {| client_node := node;
     client_remote := {| sock_addr := address_of fi mi q;
                         sock_port := collab_port cfg (q.2, q.1) |};
     MaxPackets := 10000;
     Interval := 1.0;
     PacketSize := 1024;
     client_start := start_time;
     client_stop := (collab_start cfg + collab_duration cfg)%float |}.

(** A participant's offset in the collaboration window. *)
Definition collab_offset (cfg : SimulationConfig) (p : NodeType * Z) : float :=
  (collab_start cfg
   + Z2float (globalIndex (num_fixed_nodes cfg) p) * 0.3)%float.

Definition collab_client_of (cfg : SimulationConfig) (fi mi : list Ipv4Address)
    (p : NodeType * Z) (q : Z * NodeType) : UdpEchoClient :=
  collab_client cfg fi mi (node_of p) (collab_offset cfg p) q.

Definition collab_clients_of (cfg : SimulationConfig) (fi mi : list Ipv4Address)
  : list UdpEchoClient :=
  let F := num_fixed_nodes cfg in
  let M := num_mobile_nodes cfg in
  concat ((fun p => collab_client_of cfg fi mi p <$> edges_from F M p)
            <$> allParticipants F M).

Definition add_collab_servers (apps : list UdpEchoServer)
    (self : CollaborationPhaseManager) : CollaborationPhaseManager :=
  {| collab_servers := collab_servers self ++ apps;
     collab_clients := collab_clients self |}.

Definition add_collab_clients (apps : list UdpEchoClient)
    (self : CollaborationPhaseManager) : CollaborationPhaseManager :=
  {| collab_servers := collab_servers self;
     collab_clients := collab_clients self ++ apps |}.

(** A simulation about to be set up with configuration [cfg]. *)
Definition Simulation_with (cfg : SimulationConfig) : Simulation :=
  {| config := cfg;
     fixed_positions := [];
     discovery_manager := DiscoveryPhaseManager_init;
     collab_manager := CollaborationPhaseManager_init |}.

(** The position of fixed node [i]. *)
Definition fixed_position_of (cfg : SimulationConfig) (i : Z) : Vector :=
  {| vec_x := (Z2float i * distance cfg)%float; vec_y := 0.0; vec_z := 0.0 |}.

(** A participant's offset in the collaboration window, by global index. *)
Definition collab_offset_at (cfg : SimulationConfig) (k : Z) : float :=
  (collab_start cfg + Z2float k * 0.3)%float.

(** [all(x < y for x, y in zip(l, l[1:]))] *)
Fixpoint strictly_increasing (l : list float) : bool :=
  match l with
  | [] => true
  | x :: l' =>
      match l' with
      | [] => true
      | y :: _ => (x <? y)%float
      end
      && strictly_increasing l'
  end.

(** The configuration [cfg] with other node counts and another discovery
    window and interval. *)
Definition with_discovery (cfg : SimulationConfig) (F M : Z)
    (start duration interval : float) : SimulationConfig := {|
  num_fixed_nodes := F;
  num_mobile_nodes := M;
  sim_time := sim_time cfg;
  distance := distance cfg;
  enable_pcap := enable_pcap cfg;
  verbose := verbose cfg;
  discovery_start := start;
  discovery_duration := duration;
  collab_start := collab_start cfg;
  collab_duration := collab_duration cfg;
  discovery_port := discovery_port cfg;
  collab_base_port := collab_base_port cfg;
  discovery_range := discovery_range cfg;
  discovery_interval := interval;
  network_base := network_base cfg;
  network_mask := network_mask cfg
|}.

(** The command line with no option at all. *)
Definition argv_empty : CommandLine := {|
  opt_numFixed := None; opt_numMobile := None; opt_simTime := None;
  opt_distance := None; flag_pcap := false; flag_verbose := false;
  opt_discoveryDuration := None; opt_collabDuration := None |}.

(** The command line [--discoveryDuration d]. *)
Definition argv_discoveryDuration (d : float) : CommandLine := {|
  opt_numFixed := None; opt_numMobile := None; opt_simTime := None;
  opt_distance := None; flag_pcap := false; flag_verbose := false;
  opt_discoveryDuration := Some d; opt_collabDuration := None |}.

(** The command line [--numFixed 0 --numMobile 1]. *)
Definition argv_no_fixed : CommandLine := {|
  opt_numFixed := Some 0; opt_numMobile := Some 1; opt_simTime := None;
  opt_distance := None; flag_pcap := false; flag_verbose := false;
  opt_discoveryDuration := None; opt_collabDuration := None |}.

End Binary64.

(** * Properties *)

(** ** Loops of the state-and-error monad *)

Section loops.
Context {S A : Type}.
Implicit Types (l : list A) (body : A -> SE S unit) (s : S).

(** A loop whose body always succeeds is a left fold of its effect. *)
Lemma for_each_fold l body (g : A -> S -> S) s :
  (forall x, x ∈ l -> forall s', body x s' = (Ok tt, g x s')) ->
  for_each l body s = (Ok tt, foldl (fun s' x => g x s') s l).
Proof.
  revert s. induction l as [|x l IH]; intros s Hbody; simpl.
  - reflexivity.
  - unfold bind. rewrite Hbody by left.
    apply IH. intros y Hy. apply Hbody. by right.
Qed.

(** A loop whose first body raises stops there. *)
Lemma for_each_raise x l body e s s' :
  body x s = (Raise e, s') -> for_each (x :: l) body s = (Raise e, s').
Proof. intros H. simpl. unfold bind. by rewrite H. Qed.

End loops.

(** ** [range] *)

Lemma range_nil n : n ≤ 0 -> range n = [].
Proof. apply seqZ_nil. Qed.

Lemma elem_of_range n k : k ∈ range n <-> 0 ≤ k < n.
Proof. unfold range. rewrite elem_of_seqZ. lia. Qed.

Lemma range_app n m :
  0 ≤ n -> 0 ≤ m -> range (n + m) = range n ++ (Z.add n <$> range m).
Proof.
  intros Hn Hm. unfold range. rewrite seqZ_app by done.
  rewrite fmap_add_seqZ. by rewrite Z.add_0_l, Z.add_0_r.
Qed.

Lemma length_range n : length (range n) = Z.to_nat n.
Proof. apply length_seqZ. Qed.

Lemma lookup_range n (k : nat) :
  Z.of_nat k < n -> range n !! k = Some (Z.of_nat k).
Proof. intros H. unfold range. by rewrite lookup_seqZ_lt. Qed.

(** ** [_find_neighbors] runs to its closed form *)

Lemma for_each_append_if (k : NodeType * Z) (P : Z -> Prop)
    {HP : forall j, Decision (P j)} (f : Z -> Z * NodeType)
    (l : list Z) (l0 : list (Z * NodeType)) (d : dict) :
  d !! k = Some l0 ->
  for_each l (fun j => if decide (P j) then dict_append k (f j) else ret tt) d
  = (Ok tt, <[k := l0 ++ (f <$> filter P l)]> d).
Proof.
  revert l0 d. induction l as [|j l IH]; intros l0 d Hk; simpl.
  - rewrite app_nil_r. unfold ret. by rewrite insert_id.
  - unfold bind. rewrite filter_cons. destruct (decide (P j)).
    + unfold dict_append at 1. rewrite Hk.
      rewrite (IH (l0 ++ [f j])) by apply lookup_insert_eq.
      rewrite insert_insert_eq, fmap_cons, <- app_assoc. reflexivity.
    + unfold ret at 1. by apply IH.
Qed.

Lemma for_each_append_all (k : NodeType * Z) (f : Z -> Z * NodeType)
    (l : list Z) (l0 : list (Z * NodeType)) (d : dict) :
  d !! k = Some l0 ->
  for_each l (fun j => dict_append k (f j)) d = (Ok tt, <[k := l0 ++ (f <$> l)]> d).
Proof.
  revert l0 d. induction l as [|j l IH]; intros l0 d Hk; simpl.
  - rewrite app_nil_r. unfold ret. by rewrite insert_id.
  - unfold bind. unfold dict_append at 1. rewrite Hk.
    rewrite (IH (l0 ++ [f j])) by apply lookup_insert_eq.
    rewrite insert_insert_eq, <- app_assoc. reflexivity.
Qed.

Lemma find_neighbors_body_run (cfg : SimulationConfig) :
  let F := num_fixed_nodes cfg in
  let M := num_mobile_nodes cfg in
  find_neighbors_body cfg ∅ =
    if decide (F = 0 ∧ 0 < M)
    then (Raise ZeroDivisionError, <[(mobile, 0) := []]> ∅)
    else (Ok tt, topology F M).
Proof.
  intros F M. unfold find_neighbors_body. fold F M.
  unfold bind at 1.
  rewrite (for_each_fold _ _ (fun i d => <[(fixed, i) := fixed_row F M i]> d)).
  2:{ intros i _ d. unfold bind at 1. unfold dict_set, modify.
      unfold bind.
      rewrite (for_each_append_if _ _ _ _ []) by apply lookup_insert_eq.
      rewrite (for_each_append_all _ _ _ ([] ++ _)) by apply lookup_insert_eq.
      rewrite !insert_insert_eq. reflexivity. }
  destruct (decide (F = 0 ∧ 0 < M)) as [[HF HM]|Hok].
  - rewrite (range_nil F) by lia. simpl.
    unfold range. rewrite seqZ_cons by lia.
    apply for_each_raise. unfold bind, dict_set, modify, py_mod.
    rewrite decide_True by done. reflexivity.
  - unfold topology.
    apply for_each_fold. intros i Hi d.
    apply elem_of_range in Hi.
    unfold bind, dict_set, modify, py_mod.
    rewrite !decide_False by lia. unfold ret at 1.
    unfold dict_append at 1. rewrite lookup_insert_eq. unfold ret at 1.
    unfold mobile_row. destruct (decide ((i + 1) `mod` M ≠ i)).
    + unfold dict_append. rewrite lookup_insert_eq.
      by rewrite !insert_insert_eq.
    + unfold ret. by rewrite !insert_insert_eq.
Qed.

Lemma find_neighbors_run (cfg : SimulationConfig) :
  _find_neighbors cfg =
    if decide (num_fixed_nodes cfg = 0 ∧ 0 < num_mobile_nodes cfg)
    then Raise ZeroDivisionError
    else Ok (topology (num_fixed_nodes cfg) (num_mobile_nodes cfg)).
Proof.
  unfold _find_neighbors. rewrite find_neighbors_body_run.
  by destruct (decide _).
Qed.

(** Lookups in a dictionary filled key by key. *)
Lemma lookup_foldl_insert {V} (key : Z -> NodeType * Z) (val : Z -> V)
    (l : list Z) (d : gmap (NodeType * Z) V) k :
  Inj (=) (=) key ->
  foldl (fun d i => <[key i := val i]> d) d l !! k =
    match list_find (fun i => key i = k) l with
    | Some (_, i) => Some (val i)
    | None => d !! k
    end.
Proof.
  intros Hinj. revert d. induction l as [|i l IH]; intros d; simpl.
  - reflexivity.
  - rewrite IH. destruct (decide (key i = k)) as [<-|Hne].
    + destruct (list_find _ l) as [[n j]|] eqn:Hfind; simpl.
      * apply list_find_Some in Hfind as (_ & Hj & _).
        apply Hinj in Hj. by subst.
      * apply lookup_insert_eq.
    + destruct (list_find _ l) as [[n j]|]; simpl; [done|].
      by apply lookup_insert_ne.
Qed.

Lemma list_find_range_Some (P : Z -> Prop) {HP : forall j, Decision (P j)} n i :
  0 ≤ i < n -> P i -> (forall j, P j -> j = i) ->
  snd <$> list_find P (range n) = Some i.
Proof.
  intros Hi Hholds Huniq.
  destruct (list_find P (range n)) as [[k j]|] eqn:Hfind; simpl.
  - apply list_find_Some in Hfind as (_ & Hj & _). f_equal. by apply Huniq.
  - apply list_find_None in Hfind. rewrite Forall_forall in Hfind.
    exfalso. apply (Hfind i); [by apply elem_of_range | done].
Qed.

Lemma list_find_range_None (P : Z -> Prop) {HP : forall j, Decision (P j)} n :
  (forall j, 0 ≤ j < n -> ¬ P j) -> list_find P (range n) = None.
Proof.
  intros Hnone. apply list_find_None, Forall_forall.
  intros j Hj. apply Hnone. by apply elem_of_range.
Qed.

Lemma topology_lookup_fixed F M i :
  topology F M !! (fixed, i) =
    if decide (0 ≤ i < F) then Some (fixed_row F M i) else None.
Proof.
  unfold topology.
  rewrite (lookup_foldl_insert (fun i => (mobile, i)) (mobile_row F M))
    by (intros ?? [=]; done).
  rewrite list_find_range_None by (intros ?? [=]).
  rewrite (lookup_foldl_insert (fun i => (fixed, i)) (fixed_row F M))
    by (intros ?? [=]; done).
  destruct (decide (0 ≤ i < F)) as [Hi|Hi].
  - pose proof (list_find_range_Some (fun j => (fixed, j) = (fixed, i)) F i Hi)
      as Hf.
    destruct (list_find _ _) as [[k j]|]; simpl in Hf.
    + assert (j = i) as ->; [|done].
      assert (Some j = Some i) as [=]; [|done].
      apply Hf; [done|]. by intros ? [=].
    + discriminate Hf; [done|]. by intros ? [=].
  - rewrite list_find_range_None; [done|].
    intros j Hj [= ->]. lia.
Qed.

Lemma topology_lookup_mobile F M i :
  topology F M !! (mobile, i) =
    if decide (0 ≤ i < M) then Some (mobile_row F M i) else None.
Proof.
  unfold topology.
  rewrite (lookup_foldl_insert (fun i => (mobile, i)) (mobile_row F M))
    by (intros ?? [=]; done).
  destruct (decide (0 ≤ i < M)) as [Hi|Hi].
  - pose proof (list_find_range_Some (fun j => (mobile, j) = (mobile, i)) M i Hi)
      as Hf.
    destruct (list_find _ _) as [[k j]|]; simpl in Hf.
    + assert (j = i) as ->; [|done].
      assert (Some j = Some i) as [=]; [|done].
      apply Hf; [done|]. by intros ? [=].
    + discriminate Hf; [done|]. by intros ? [=].
  - rewrite list_find_range_None by (intros j Hj [= ->]; lia).
    rewrite (lookup_foldl_insert (fun i => (fixed, i)) (fixed_row F M))
      by (intros ?? [=]; done).
    by rewrite list_find_range_None by (intros ?? [=]).
Qed.

(** ** Participants *)

Lemma elem_of_allParticipants F M t i :
  (t, i) ∈ allParticipants F M <->
  0 ≤ i < match t with fixed => F | mobile => M end.
Proof.
  unfold allParticipants. rewrite elem_of_app, !list_elem_of_fmap.
  setoid_rewrite elem_of_range. destruct t; split.
  - intros [(j & [= ->] & Hj)|(j & [=] & _)]. done.
  - intros Hi. left. by exists i.
  - intros [(j & [=] & _)|(j & [= ->] & Hj)]. done.
  - intros Hi. right. by exists i.
Qed.

Lemma globalIndex_allParticipants F M :
  0 ≤ F -> 0 ≤ M -> globalIndex F <$> allParticipants F M = range (F + M).
Proof.
  intros HF HM. unfold allParticipants.
  rewrite fmap_app, <- !list_fmap_compose, range_app by done.
  f_equal. apply list_fmap_id.
Qed.

(** ** Engine containers *)

Lemma GetAddress_in_range {S} (l : list Ipv4Address) (i : Z) (s : S) :
  0 ≤ i -> (Z.to_nat i < length l)%nat ->
  exists a, l !! Z.to_nat i = Some a ∧ GetAddress l i s = (Ok a, s).
Proof.
  intros Hi Hlen. unfold GetAddress. rewrite decide_False by lia.
  destruct (lookup_lt_is_Some_2 l (Z.to_nat i) Hlen) as [a Ha].
  exists a. by rewrite Ha.
Qed.

Lemma collect_ok {S A B} (l : list A) (f : A -> SE S B) (s : S) :
  (forall x, x ∈ l -> exists y, f x s = (Ok y, s)) ->
  exists ys, collect l f s = (Ok ys, s).
Proof.
  induction l as [|x l IH]; intros Hf; simpl.
  - by exists [].
  - unfold bind. destruct (Hf x) as [y ->]; [left|].
    destruct IH as [ys ->]; [intros z Hz; apply Hf; by right|].
    by exists (y :: ys).
Qed.

Section container.
Context {S A B : Type} (add : list B -> S -> S).
Hypothesis add_nil : forall s, add [] s = s.
Hypothesis add_add : forall l1 l2 s, add l2 (add l1 s) = add (l1 ++ l2) s.

Lemma foldl_add_concat (h : A -> list B) (l : list A) (s : S) :
  foldl (fun s x => add (h x) s) s l = add (concat (h <$> l)) s.
Proof.
  revert s. induction l as [|x l IH]; intros s; simpl.
  - by rewrite add_nil.
  - by rewrite IH, add_add.
Qed.

Lemma foldl_add_fmap (f : A -> B) (l : list A) (s : S) :
  foldl (fun s x => add [f x] s) s l = add (f <$> l) s.
Proof.
  revert s. induction l as [|x l IH]; intros s; simpl.
  - by rewrite add_nil.
  - by rewrite IH, add_add.
Qed.
End container.

(** ** The discovery phase runs to its closed form *)

Lemma discovery_server_loop cfg t n (interfaces : list Ipv4Address) s :
  length interfaces = Z.to_nat n ->
  for_each (range n) (fun i =>
    addr <- GetAddress interfaces i ;;
    _create_discovery_server cfg (NodeGet t i) addr) s
  = (Ok tt, add_discovery_servers
              (discovery_server_of cfg <$> (pair t <$> range n)) s).
Proof.
  intros Hlen.
  rewrite (for_each_fold _ _
    (fun i => add_discovery_servers [discovery_server_of cfg (t, i)])).
  - f_equal. rewrite <- list_fmap_compose.
    apply (foldl_add_fmap add_discovery_servers).
    + intros []. unfold add_discovery_servers; simpl. by rewrite app_nil_r.
    + intros l1 l2 []. unfold add_discovery_servers; simpl.
      by rewrite app_assoc.
  - intros i Hi s'. apply elem_of_range in Hi. unfold bind.
    destruct (GetAddress_in_range interfaces i s') as (a & _ & ->); [lia..|].
    reflexivity.
Qed.

Lemma discovery_client_loop cfg t n (all_addresses : list Ipv4Address) s :
  Qeq_bool (discovery_interval cfg) 0 = false ->
  for_each (range n) (fun i =>
    _create_discovery_client cfg (NodeGet t i) all_addresses
      (client_start (discovery_client_of cfg (t, i)))) s
  = (Ok tt, add_discovery_clients
              (discovery_client_of cfg <$> (pair t <$> range n)) s).
Proof.
  intros Hint.
  rewrite (for_each_fold _ _
    (fun i => add_discovery_clients [discovery_client_of cfg (t, i)])).
  - f_equal. rewrite <- list_fmap_compose.
    apply (foldl_add_fmap add_discovery_clients).
    + intros []. unfold add_discovery_clients; simpl. by rewrite app_nil_r.
    + intros l1 l2 []. unfold add_discovery_clients; simpl.
      by rewrite app_assoc.
  - intros i Hi s'. unfold _create_discovery_client, bind, py_truediv.
    rewrite Hint. reflexivity.
Qed.

Lemma discovery_client_loop_raise cfg t n (all_addresses : list Ipv4Address)
    (start_of : Z -> Q) s :
  Qeq_bool (discovery_interval cfg) 0 = true ->
  for_each (range n) (fun i =>
    _create_discovery_client cfg (NodeGet t i) all_addresses (start_of i)) s
  = (if decide (0 < n) then Raise ZeroDivisionError else Ok tt, s).
Proof.
  intros Hint. destruct (decide (0 < n)).
  - unfold range. rewrite seqZ_cons by done. apply for_each_raise.
    unfold _create_discovery_client, bind, py_truediv. by rewrite Hint.
  - by rewrite range_nil by lia.
Qed.

Lemma setup_discovery_phase_run cfg (fi mi : list Ipv4Address) s :
  let F := num_fixed_nodes cfg in
  let M := num_mobile_nodes cfg in
  length fi = Z.to_nat F -> length mi = Z.to_nat M ->
  setup_discovery_phase cfg fi mi s =
    let served :=
      add_discovery_servers (discovery_server_of cfg <$> allParticipants F M) s in
    if Qeq_bool (discovery_interval cfg) 0
    then (if decide (0 < F ∨ 0 < M) then Raise ZeroDivisionError else Ok tt,
          served)
    else (Ok tt,
          add_discovery_clients
            (discovery_client_of cfg <$> allParticipants F M) served).
Proof.
  intros F M Hfi Hmi. unfold setup_discovery_phase. fold F M.
  unfold bind at 1. rewrite discovery_server_loop by done.
  unfold bind at 1. rewrite discovery_server_loop by done.
  assert (forall s0,
            add_discovery_servers
              (discovery_server_of cfg <$> (pair mobile <$> range M))
              (add_discovery_servers
                 (discovery_server_of cfg <$> (pair fixed <$> range F)) s0)
          = add_discovery_servers (discovery_server_of cfg <$> allParticipants F M) s0)
    as ->.
  { intros []. unfold add_discovery_servers, allParticipants; simpl.
    by rewrite fmap_app, app_assoc. }
  unfold bind at 1.
  destruct (collect_ok (range F) (GetAddress fi)
              (add_discovery_servers
                 (discovery_server_of cfg <$> allParticipants F M) s))
    as [fa ->].
  { intros i Hi%elem_of_range.
    match goal with |- context [GetAddress _ _ ?s0] =>
      destruct (GetAddress_in_range fi i s0) as (a & _ & ->); [lia..|]
    end.
    by eexists. }
  unfold bind at 1.
  destruct (collect_ok (range M) (GetAddress mi)
              (add_discovery_servers
                 (discovery_server_of cfg <$> allParticipants F M) s))
    as [ma ->].
  { intros i Hi%elem_of_range.
    match goal with |- context [GetAddress _ _ ?s0] =>
      destruct (GetAddress_in_range mi i s0) as (a & _ & ->); [lia..|]
    end.
    by eexists. }
  cbv zeta. set (served := add_discovery_servers _ s).
  destruct (Qeq_bool (discovery_interval cfg) 0) eqn:Hint.
  - unfold bind.
    rewrite (discovery_client_loop_raise cfg fixed F _ _ served Hint).
    destruct (decide (0 < F)).
    + by rewrite decide_True by lia.
    + rewrite (discovery_client_loop_raise cfg mobile M _ _ served Hint).
      destruct (decide (0 < M)).
      * by rewrite decide_True by lia.
      * by rewrite decide_False by lia.
  - unfold bind.
    rewrite (discovery_client_loop cfg fixed F _ served Hint).
    rewrite (discovery_client_loop cfg mobile M _ _ Hint).
    f_equal. destruct served. unfold add_discovery_clients, allParticipants; simpl.
    by rewrite fmap_app, app_assoc.
Qed.

(** ** Rows of the dictionary *)

Lemma elem_of_fixed_row F M i j t :
  (j, t) ∈ fixed_row F M i <->
  match t with
  | fixed => 0 ≤ j < F ∧ i ≠ j ∧ Z.abs (i - j) ≤ 1
  | mobile => 0 ≤ j < Z.min 2 M
  end.
Proof.
  unfold fixed_row. rewrite elem_of_app, !list_elem_of_fmap.
  setoid_rewrite list_elem_of_filter. setoid_rewrite elem_of_range.
  destruct t; split.
  - intros [(k & [= ->] & Hk & Hr)|(k & [=] & _)]. done.
  - intros Hj. left. exists j. tauto.
  - intros [(k & [=] & _)|(k & [= ->] & Hk)]. done.
  - intros Hj. right. by exists j.
Qed.

Lemma elem_of_mobile_row F M i j t :
  (j, t) ∈ mobile_row F M i <->
  match t with
  | fixed => j = i `mod` F
  | mobile => j = (i + 1) `mod` M ∧ j ≠ i
  end.
Proof.
  unfold mobile_row. rewrite elem_of_cons.
  destruct (decide ((i + 1) `mod` M ≠ i)) as [Hne|Heq].
  - rewrite list_elem_of_singleton. destruct t; split.
    + intros [[= ->]|[=]]. done.
    + intros ->. by left.
    + intros [[=]|[= ->]]. done.
    + intros [-> _]. by right.
  - rewrite elem_of_nil. destruct t; split.
    + intros [[= ->]|[]]. done.
    + intros ->. by left.
    + intros [[=]|[]].
    + intros [-> Hne]. by destruct Heq.
Qed.

Lemma NoDup_fixed_row F M i : NoDup (fixed_row F M i).
Proof.
  unfold fixed_row. apply NoDup_app. split_and!.
  - apply NoDup_fmap_2; [by intros ?? [=]|].
    apply NoDup_filter, NoDup_seqZ.
  - intros [j t] (k & [= -> ->] & _)%list_elem_of_fmap
                 (k' & [=] & _)%list_elem_of_fmap.
  - apply NoDup_fmap_2; [by intros ?? [=]|]. apply NoDup_seqZ.
Qed.

Lemma NoDup_mobile_row F M i : NoDup (mobile_row F M i).
Proof.
  unfold mobile_row. destruct (decide _).
  - apply NoDup_cons. split; [|apply NoDup_singleton].
    by intros [=]%list_elem_of_singleton.
  - apply NoDup_singleton.
Qed.

(** ** The collaboration phase runs to its closed form *)

Lemma add_collab_clients_nil s : add_collab_clients [] s = s.
Proof. destruct s. unfold add_collab_clients; simpl. by rewrite app_nil_r. Qed.

Lemma add_collab_clients_add l1 l2 s :
  add_collab_clients l2 (add_collab_clients l1 s) = add_collab_clients (l1 ++ l2) s.
Proof. destruct s. unfold add_collab_clients; simpl. by rewrite app_assoc. Qed.

Lemma add_collab_servers_nil s : add_collab_servers [] s = s.
Proof. destruct s. unfold add_collab_servers; simpl. by rewrite app_nil_r. Qed.

Lemma add_collab_servers_add l1 l2 s :
  add_collab_servers l2 (add_collab_servers l1 s) = add_collab_servers (l1 ++ l2) s.
Proof. destruct s. unfold add_collab_servers; simpl. by rewrite app_assoc. Qed.

Lemma collab_edge_loop cfg fi mi node start_time (row : list (Z * NodeType)) s :
  (forall q, q ∈ row -> resolvable fi mi q) ->
  for_each row (fun '(neighbor_idx, neighbor_type) =>
    match neighbor_type with
    | fixed =>
        target_addr <- GetAddress fi neighbor_idx ;;
        _create_collab_client cfg node target_addr
          (collab_base_port cfg + neighbor_idx) start_time
    | mobile =>
        target_addr <- GetAddress mi neighbor_idx ;;
        _create_collab_client cfg node target_addr
          (collab_base_port cfg + num_fixed_nodes cfg + neighbor_idx) start_time
    end) s
  = (Ok tt, add_collab_clients (collab_client cfg fi mi node start_time <$> row) s).
Proof.
  intros Hrow.
  rewrite (for_each_fold _ _
    (fun q => add_collab_clients [collab_client cfg fi mi node start_time q])).
  - f_equal. apply (foldl_add_fmap add_collab_clients).
    + apply add_collab_clients_nil.
    + apply add_collab_clients_add.
  - intros [j t] Hq s'. destruct (Hrow _ Hq) as [Hj Hlen]. simpl in Hj, Hlen.
    unfold bind, collab_client, address_of; simpl.
    destruct t.
    + destruct (GetAddress_in_range fi j s') as (a & Ha & ->); [done..|].
      unfold _create_collab_client, collab_clients_Add, modify.
      by rewrite (list_lookup_total_correct _ _ _ Ha).
    + destruct (GetAddress_in_range mi j s') as (a & Ha & ->); [done..|].
      unfold _create_collab_client, collab_clients_Add, modify.
      by rewrite (list_lookup_total_correct _ _ _ Ha).
Qed.

Lemma edges_from_resolvable F M (fi mi : list Ipv4Address) p q :
  0 < F -> length fi = Z.to_nat F -> length mi = Z.to_nat M ->
  q ∈ edges_from F M p ->
  (q.2, q.1) ∈ allParticipants F M ∧ (q.2, q.1) ≠ p ∧ resolvable fi mi q.
Proof.
  intros HF Hfi Hmi. destruct p as [[] i], q as [j t]; unfold edges_from.
  - rewrite topology_lookup_fixed. destruct (decide (0 ≤ i < F)); simpl.
    + intros Hq%elem_of_fixed_row. rewrite elem_of_allParticipants.
      unfold resolvable; simpl.
      destruct t; split_and!; try lia; intros [=]; lia.
    + intros []%elem_of_nil.
  - rewrite topology_lookup_mobile. destruct (decide (0 ≤ i < M)); simpl.
    + intros Hq%elem_of_mobile_row. rewrite elem_of_allParticipants.
      unfold resolvable; simpl.
      pose proof (Z.mod_pos_bound i F HF).
      pose proof (Z.mod_pos_bound (i + 1) M ltac:(lia)).
      destruct t; split_and!; try lia; intros [=]; lia.
    + intros []%elem_of_nil.
Qed.

Lemma setup_collab_connections_run cfg (fi mi : list Ipv4Address) s :
  let F := num_fixed_nodes cfg in
  let M := num_mobile_nodes cfg in
  0 ≤ F -> length fi = Z.to_nat F -> length mi = Z.to_nat M ->
  _setup_collab_connections cfg fi mi s =
    if decide (F = 0 ∧ 0 < M)
    then (Raise ZeroDivisionError, s)
    else (Ok tt, add_collab_clients (collab_clients_of cfg fi mi) s).
Proof.
  intros F M HF Hfi Hmi. unfold _setup_collab_connections, call_find_neighbors.
  rewrite find_neighbors_run. fold F M. unfold bind at 1.
  destruct (decide (F = 0 ∧ 0 < M)) as [|Hok]; [reflexivity|].
  unfold ret at 1. unfold bind.
  rewrite (for_each_fold _ _ (fun i =>
    add_collab_clients (collab_client_of cfg fi mi (fixed, i)
                          <$> edges_from F M (fixed, i)))).
  2:{ intros i Hi%elem_of_range s'. apply collab_edge_loop.
      intros q Hq. by eapply (edges_from_resolvable F M); [lia|..]. }
  rewrite (for_each_fold _ _ (fun i =>
    add_collab_clients (collab_client_of cfg fi mi (mobile, i)
                          <$> edges_from F M (mobile, i)))).
  2:{ intros i Hi%elem_of_range s'. apply collab_edge_loop.
      intros q Hq. by eapply (edges_from_resolvable F M); [lia|..]. }
  f_equal.
  rewrite !(foldl_add_concat add_collab_clients)
    by (apply add_collab_clients_nil || apply add_collab_clients_add).
  rewrite add_collab_clients_add. f_equal.
  unfold collab_clients_of, allParticipants. fold F M.
  by rewrite fmap_app, concat_app, <- !list_fmap_compose.
Qed.

Lemma collab_server_loop cfg t n (interfaces : list Ipv4Address) s :
  length interfaces = Z.to_nat n ->
  for_each (range n) (fun i =>
    addr <- GetAddress interfaces i ;;
    _create_collab_server cfg (NodeGet t i) (collab_port cfg (t, i)) addr) s
  = (Ok tt, add_collab_servers (collab_server_of cfg <$> (pair t <$> range n)) s).
Proof.
  intros Hlen.
  rewrite (for_each_fold _ _
    (fun i => add_collab_servers [collab_server_of cfg (t, i)])).
  - f_equal. rewrite <- list_fmap_compose.
    apply (foldl_add_fmap add_collab_servers).
    + apply add_collab_servers_nil.
    + apply add_collab_servers_add.
  - intros i Hi s'. apply elem_of_range in Hi. unfold bind.
    destruct (GetAddress_in_range interfaces i s') as (a & _ & ->); [lia..|].
    reflexivity.
Qed.

Lemma setup_collaboration_phase_run cfg (fi mi : list Ipv4Address) s :
  let F := num_fixed_nodes cfg in
  let M := num_mobile_nodes cfg in
  0 ≤ F -> length fi = Z.to_nat F -> length mi = Z.to_nat M ->
  setup_collaboration_phase cfg fi mi s =
    let served :=
      add_collab_servers (collab_server_of cfg <$> allParticipants F M) s in
    if decide (F = 0 ∧ 0 < M)
    then (Raise ZeroDivisionError, served)
    else (Ok tt, add_collab_clients (collab_clients_of cfg fi mi) served).
Proof.
  intros F M HF Hfi Hmi. unfold setup_collaboration_phase. fold F M.
  pose proof (collab_server_loop cfg fixed F fi s Hfi) as Hfixed.
  cbv beta iota delta [collab_port] in Hfixed.
  unfold bind at 1. rewrite Hfixed.
  pose proof (collab_server_loop cfg mobile M mi
                (add_collab_servers
                   (collab_server_of cfg <$> (pair fixed <$> range F)) s) Hmi)
    as Hmobile.
  cbv beta iota delta [collab_port] in Hmobile. fold F in Hmobile.
  unfold bind at 1. rewrite Hmobile.
  rewrite add_collab_servers_add, <- fmap_app.
  by apply setup_collab_connections_run.
Qed.

(** ** The whole setup *)

Lemma length_assign_ip_addresses cfg :
  length (assign_ip_addresses cfg).1 = Z.to_nat (num_fixed_nodes cfg)
  ∧ length (assign_ip_addresses cfg).2 = Z.to_nat (num_mobile_nodes cfg).
Proof.
  unfold assign_ip_addresses; simpl. by rewrite !length_fmap, !length_range.
Qed.

Lemma assign_ip_addresses_fixed cfg (i : Z) :
  0 ≤ i < num_fixed_nodes cfg ->
  (assign_ip_addresses cfg).1 !!! Z.to_nat i
  = Ipv4Assigned (network_base cfg) (network_mask cfg) i.
Proof.
  intros Hi. apply list_lookup_total_correct.
  unfold assign_ip_addresses; simpl.
  rewrite list_lookup_fmap, lookup_range by lia. simpl. f_equal. f_equal. lia.
Qed.

Lemma assign_ip_addresses_mobile cfg (i : Z) :
  0 ≤ num_fixed_nodes cfg -> 0 ≤ i < num_mobile_nodes cfg ->
  (assign_ip_addresses cfg).2 !!! Z.to_nat i
  = Ipv4Assigned (network_base cfg) (network_mask cfg) (num_fixed_nodes cfg + i).
Proof.
  intros HF Hi. apply list_lookup_total_correct.
  unfold assign_ip_addresses; simpl.
  rewrite list_lookup_fmap, lookup_range by lia. simpl.
  rewrite length_fmap, length_range. f_equal. f_equal. lia.
Qed.


(** ** The dictionary against the adjacency rule *)

Lemma topology_lookup F M p :
  topology F M !! p =
    if decide (p ∈ allParticipants F M)
    then Some (match p.1 with
               | fixed => fixed_row F M p.2
               | mobile => mobile_row F M p.2
               end)
    else None.
Proof.
  destruct p as [[] i]; simpl.
  - rewrite topology_lookup_fixed.
    destruct (decide (0 ≤ i < F)) as [Hi|Hi].
    + by rewrite decide_True by (by apply elem_of_allParticipants).
    + by rewrite decide_False by (by rewrite elem_of_allParticipants).
  - rewrite topology_lookup_mobile.
    destruct (decide (0 ≤ i < M)) as [Hi|Hi].
    + by rewrite decide_True by (by apply elem_of_allParticipants).
    + by rewrite decide_False by (by rewrite elem_of_allParticipants).
Qed.

Lemma topology_row F M p row :
  topology F M !! p = Some row ->
  p ∈ allParticipants F M
  ∧ NoDup row
  ∧ forall j t, (j, t) ∈ row <-> adjacent F M p (t, j).
Proof.
  rewrite topology_lookup. destruct (decide _) as [Hp|]; [|done].
  intros [= <-]. split; [done|]. destruct p as [[] i]; simpl.
  - split; [apply NoDup_fixed_row|]. intros j t.
    rewrite elem_of_fixed_row. by destruct t.
  - split; [apply NoDup_mobile_row|]. intros j t.
    rewrite elem_of_mobile_row. by destruct t.
Qed.

Lemma find_neighbors_counts cfg cfg' :
  num_fixed_nodes cfg' = num_fixed_nodes cfg ->
  num_mobile_nodes cfg' = num_mobile_nodes cfg ->
  _find_neighbors cfg' = _find_neighbors cfg.
Proof.
  intros HF HM. unfold _find_neighbors, find_neighbors_body.
  by rewrite HF, HM.
Qed.

(** * Claims on the neighbour topology *)

(** C1. For participant counts [F >= 1] and [M >= 1], [_find_neighbors]
    returns a dictionary whose keys are exactly the participants and whose
    row for a participant lists, without repetition, exactly the neighbours
    the adjacency rule gives it: for fixed [i] the fixed [j] with [i <> j] and
    [|i - j| <= 1] and the first [min(2, M)] mobile participants, for mobile
    [i] the fixed participant [i mod F] and the mobile participant
    [(i + 1) mod M] unless that is [i].  The result depends on the counts
    only: any configuration with the same counts yields the same dictionary.
    For [F = 2], [M = 4], fixed 0 has neighbours Fixed-1, Mobile-0, Mobile-1
    and mobile 3 has neighbours Fixed-1, Mobile-0. *)
Theorem find_neighbors_adjacency (cfg : SimulationConfig) :
  1 ≤ num_fixed_nodes cfg -> 1 ≤ num_mobile_nodes cfg ->
  exists neighbors : dict,
    _find_neighbors cfg = Ok neighbors
    ∧ (forall p, is_Some (neighbors !! p)
                 <-> p ∈ allParticipants (num_fixed_nodes cfg) (num_mobile_nodes cfg))
    ∧ (forall p row, neighbors !! p = Some row ->
         NoDup row
         ∧ forall j t, (j, t) ∈ row
                       <-> adjacent (num_fixed_nodes cfg) (num_mobile_nodes cfg) p (t, j))
    ∧ (forall cfg', num_fixed_nodes cfg' = num_fixed_nodes cfg ->
                    num_mobile_nodes cfg' = num_mobile_nodes cfg ->
                    _find_neighbors cfg' = Ok neighbors)
    ∧ (num_fixed_nodes cfg = 2 -> num_mobile_nodes cfg = 4 ->
       neighbors !! (fixed, 0) = Some [(1, fixed); (0, mobile); (1, mobile)]
       ∧ neighbors !! (mobile, 3) = Some [(1, fixed); (0, mobile)]).
Proof.
  intros HF HM.
  exists (topology (num_fixed_nodes cfg) (num_mobile_nodes cfg)).
  assert (_find_neighbors cfg
          = Ok (topology (num_fixed_nodes cfg) (num_mobile_nodes cfg))) as Hrun.
  { rewrite find_neighbors_run. by rewrite decide_False by lia. }
  split_and!.
  - exact Hrun.
  - intros p. rewrite topology_lookup. destruct (decide _) as [Hp|Hp].
    + split; [done | by eexists].
    + split; [by intros [? [=]] | done].
  - intros p row Hrow. by apply topology_row in Hrow as (_ & Hnd & Hadj).
  - intros cfg' HF' HM'. by rewrite (find_neighbors_counts cfg cfg').
  - intros -> ->. rewrite topology_lookup_fixed, topology_lookup_mobile.
    split; reflexivity.
Qed.

Lemma find_neighbors_adjacency_witness :
  1 ≤ num_fixed_nodes SimulationConfig_init
  ∧ 1 ≤ num_mobile_nodes SimulationConfig_init
  ∧ exists neighbors : dict,
      _find_neighbors SimulationConfig_init = Ok neighbors
      ∧ neighbors !! (fixed, 0) = Some [(1, fixed); (0, mobile); (1, mobile)]
      ∧ neighbors !! (mobile, 3) = Some [(1, fixed); (0, mobile)].
Proof.
  assert (1 ≤ num_fixed_nodes SimulationConfig_init) as HF by (simpl; lia).
  assert (1 ≤ num_mobile_nodes SimulationConfig_init) as HM by (simpl; lia).
  split; [exact HF|]. split; [exact HM|].
  destruct (find_neighbors_adjacency SimulationConfig_init HF HM)
    as (neighbors & Hrun & _ & _ & _ & Hex).
  exists neighbors. split; [exact Hrun|]. by apply Hex.
Defined.

(** C9. With no fixed participant and at least one mobile participant the
    neighbour computation returns no dictionary: the first mobile
    participant's [i % num_fixed_nodes] divides by zero and the call raises
    [ZeroDivisionError]. *)
Theorem find_neighbors_no_fixed (cfg : SimulationConfig) :
  num_fixed_nodes cfg = 0 -> 1 ≤ num_mobile_nodes cfg ->
  _find_neighbors cfg = Raise ZeroDivisionError
  ∧ (forall neighbors, _find_neighbors cfg ≠ Ok neighbors)
  ∧ py_mod 0 (num_fixed_nodes cfg) (∅ : dict) = (Raise ZeroDivisionError, ∅).
Proof.
  intros HF HM. rewrite find_neighbors_run.
  rewrite decide_True by lia. split_and!; [done | done |].
  unfold py_mod. by rewrite decide_True.
Qed.

Lemma find_neighbors_no_fixed_witness :
  num_fixed_nodes (parse_arguments SimulationConfig_init argv_no_fixed) = 0
  ∧ 1 ≤ num_mobile_nodes (parse_arguments SimulationConfig_init argv_no_fixed)
  ∧ _find_neighbors (parse_arguments SimulationConfig_init argv_no_fixed)
    = Raise ZeroDivisionError.
Proof.
  split; [reflexivity|]. split; [simpl; lia|].
  apply (find_neighbors_no_fixed
           (parse_arguments SimulationConfig_init argv_no_fixed));
    [reflexivity | simpl; lia].
Defined.

(** Against C5: with one fixed and no mobile participant the topology is
    computed without any exception, and the fixed participant is left with
    an empty neighbour list. *)
Lemma find_neighbors_no_mobile_returns :
  num_fixed_nodes (parse_arguments SimulationConfig_init argv_no_mobile) = 1
  ∧ num_mobile_nodes (parse_arguments SimulationConfig_init argv_no_mobile) = 0
  ∧ (forall e, _find_neighbors (parse_arguments SimulationConfig_init argv_no_mobile)
               ≠ Raise e)
  ∧ exists neighbors : dict,
      _find_neighbors (parse_arguments SimulationConfig_init argv_no_mobile)
      = Ok neighbors
      ∧ neighbors !! (fixed, 0) = Some [].
Proof.
  split; [reflexivity|]. split; [reflexivity|].
  rewrite find_neighbors_run. simpl. split; [done|].
  eexists. split; [reflexivity|].
  by rewrite topology_lookup_fixed.
Qed.

(** C5, amended. With [F >= 1] fixed participants and no mobile participant
    [_find_neighbors] raises nothing: it returns a dictionary whose keys are
    the fixed participants, and the row of fixed [i] holds exactly the fixed
    [j] with [i <> j] and [|i - j| <= 1] and no mobile entry. *)
Theorem find_neighbors_no_mobile (cfg : SimulationConfig) :
  1 ≤ num_fixed_nodes cfg -> num_mobile_nodes cfg = 0 ->
  exists neighbors : dict,
    _find_neighbors cfg = Ok neighbors
    ∧ (forall t i, is_Some (neighbors !! (t, i))
                   <-> t = fixed ∧ 0 ≤ i < num_fixed_nodes cfg)
    ∧ (forall i row, neighbors !! (fixed, i) = Some row ->
         NoDup row
         ∧ forall j t, (j, t) ∈ row
             <-> t = fixed ∧ 0 ≤ j < num_fixed_nodes cfg
                 ∧ i ≠ j ∧ Z.abs (i - j) ≤ 1).
Proof.
  intros HF HM. exists (topology (num_fixed_nodes cfg) 0).
  split_and!.
  - rewrite find_neighbors_run, HM. by rewrite decide_False by lia.
  - intros t i. rewrite topology_lookup. destruct (decide _) as [Hp|Hp].
    + apply elem_of_allParticipants in Hp.
      split; [|by eexists]. intros _. destruct t; [done|lia].
    + split; [by intros [? [=]]|]. intros [-> Hi].
      destruct Hp. by apply elem_of_allParticipants.
  - intros i row Hrow. apply topology_row in Hrow as (_ & Hnd & Hadj).
    split; [done|]. intros j t. rewrite Hadj. simpl.
    destruct t; [tauto|]. split; [lia | by intros [[=] _]].
Qed.

Lemma find_neighbors_no_mobile_witness :
  1 ≤ num_fixed_nodes (parse_arguments SimulationConfig_init argv_no_mobile)
  ∧ num_mobile_nodes (parse_arguments SimulationConfig_init argv_no_mobile) = 0
  ∧ exists neighbors : dict,
      _find_neighbors (parse_arguments SimulationConfig_init argv_no_mobile)
      = Ok neighbors.
Proof.
  assert (1 ≤ num_fixed_nodes
                (parse_arguments SimulationConfig_init argv_no_mobile)) as HF
    by (simpl; lia).
  split; [exact HF|]. split; [reflexivity|].
  destruct (find_neighbors_no_mobile
              (parse_arguments SimulationConfig_init argv_no_mobile)
              HF eq_refl) as (neighbors & Hrun & _).
  by exists neighbors.
Defined.

Lemma elem_of_concat {A} (x : A) (ls : list (list A)) :
  x ∈ concat ls <-> exists l, l ∈ ls ∧ x ∈ l.
Proof.
  rewrite list_elem_of_In, in_concat.
  split; intros (l & H1 & H2); exists l; by rewrite ?list_elem_of_In in *.
Qed.

Lemma elem_of_collab_clients_of cfg fi mi c :
  c ∈ collab_clients_of cfg fi mi <->
  exists p q, p ∈ allParticipants (num_fixed_nodes cfg) (num_mobile_nodes cfg)
              ∧ q ∈ edges_from (num_fixed_nodes cfg) (num_mobile_nodes cfg) p
              ∧ c = collab_client_of cfg fi mi p q.
Proof.
  unfold collab_clients_of. rewrite elem_of_concat. split.
  - intros (l & (p & -> & Hp)%list_elem_of_fmap & (q & -> & Hq)%list_elem_of_fmap).
    by exists p, q.
  - intros (p & q & Hp & Hq & ->). eexists. split.
    + apply list_elem_of_fmap. by exists p.
    + apply list_elem_of_fmap. by exists q.
Qed.

Lemma collab_port_globalIndex cfg p :
  collab_port cfg p = collab_base_port cfg + globalIndex (num_fixed_nodes cfg) p.
Proof. destruct p as [[] i]; simpl; lia. Qed.

Lemma collab_client_of_remote cfg p (q : Z * NodeType) :
  0 ≤ num_fixed_nodes cfg ->
  (q.2, q.1) ∈ allParticipants (num_fixed_nodes cfg) (num_mobile_nodes cfg) ->
  client_remote (collab_client_of cfg (assign_ip_addresses cfg).1
                   (assign_ip_addresses cfg).2 p q)
  = collab_endpoint cfg (q.2, q.1).
Proof.
  intros HF Hq. destruct q as [j t]. simpl in Hq.
  apply elem_of_allParticipants in Hq.
  unfold collab_client_of, collab_client, collab_endpoint, address_of.
  cbn [client_remote fst snd]. rewrite collab_port_globalIndex. f_equal.
  destruct t; simpl.
  - by apply assign_ip_addresses_fixed.
  - by apply assign_ip_addresses_mobile.
Qed.

(** C8. Whenever the neighbour computation returns (participant counts
    being non-negative), every edge is proper: its source is a participant,
    its target is a participant (fixed indices in [0, F), mobile indices in
    [0, M)) and differs from the source.  Consequently the connection setup
    succeeds and every collaboration sender it installs sits on a
    participant and targets the endpoint of another participant. *)
Theorem topology_edges_proper (cfg : SimulationConfig) (neighbors : dict) :
  0 ≤ num_fixed_nodes cfg ->
  _find_neighbors cfg = Ok neighbors ->
  (forall p row q, neighbors !! p = Some row -> q ∈ row ->
     p ∈ allParticipants (num_fixed_nodes cfg) (num_mobile_nodes cfg)
     ∧ (q.2, q.1) ∈ allParticipants (num_fixed_nodes cfg) (num_mobile_nodes cfg)
     ∧ (q.2, q.1) ≠ p)
  ∧ (forall s, exists new,
       _setup_collab_connections cfg (assign_ip_addresses cfg).1
         (assign_ip_addresses cfg).2 s
       = (Ok tt, add_collab_clients new s)
       ∧ forall c, c ∈ new ->
           exists p q,
             p ∈ allParticipants (num_fixed_nodes cfg) (num_mobile_nodes cfg)
             ∧ q ∈ allParticipants (num_fixed_nodes cfg) (num_mobile_nodes cfg)
             ∧ q ≠ p
             ∧ client_node c = node_of p
             ∧ client_remote c = collab_endpoint cfg q).
Proof.
  intros HF Hrun. rewrite find_neighbors_run in Hrun.
  destruct (decide _) as [|Hok]; [done|]. injection Hrun as <-.
  destruct (length_assign_ip_addresses cfg) as [Hfi Hmi].
  assert (forall p q,
            p ∈ allParticipants (num_fixed_nodes cfg) (num_mobile_nodes cfg) ->
            q ∈ edges_from (num_fixed_nodes cfg) (num_mobile_nodes cfg) p ->
            (q.2, q.1) ∈ allParticipants (num_fixed_nodes cfg) (num_mobile_nodes cfg)
            ∧ (q.2, q.1) ≠ p) as Hproper.
  { intros [t i] q Hp Hq. apply elem_of_allParticipants in Hp.
    assert (0 < num_fixed_nodes cfg) as HF' by (destruct t; lia).
    by destruct (edges_from_resolvable _ _ _ _ _ _ HF' Hfi Hmi Hq) as (? & ? & _). }
  split.
  - intros p row q Hrow Hq.
    pose proof (topology_row _ _ _ _ Hrow) as (Hp & _).
    split; [done|]. apply Hproper; [done|].
    unfold edges_from. by rewrite Hrow.
  - intros s. exists (collab_clients_of cfg (assign_ip_addresses cfg).1
                        (assign_ip_addresses cfg).2).
    split.
    + rewrite setup_collab_connections_run by done.
      by rewrite decide_False by done.
    + intros c (p & q & Hp & Hq & ->)%elem_of_collab_clients_of.
      destruct (Hproper p q Hp Hq) as [Hin Hne].
      exists p, (q.2, q.1). split_and!; [done..|].
      by apply collab_client_of_remote.
Qed.

Lemma topology_edges_proper_witness :
  0 ≤ num_fixed_nodes SimulationConfig_init
  ∧ exists neighbors : dict,
      _find_neighbors SimulationConfig_init = Ok neighbors
      ∧ forall p row q, neighbors !! p = Some row -> q ∈ row ->
          p ∈ allParticipants 2 4 ∧ (q.2, q.1) ∈ allParticipants 2 4
          ∧ (q.2, q.1) ≠ p.
Proof.
  assert (0 ≤ num_fixed_nodes SimulationConfig_init) as HF by (simpl; lia).
  split; [exact HF|]. exists (topology 2 4).
  assert (_find_neighbors SimulationConfig_init = Ok (topology 2 4)) as Hrun
    by (vm_compute; reflexivity).
  split; [exact Hrun|].
  apply (topology_edges_proper SimulationConfig_init (topology 2 4) HF Hrun).
Defined.

(** The same computation on a negative fixed count, which is no participant
    count: the modulo then yields an index that names no participant. *)
Remark find_neighbors_negative_fixed :
  exists neighbors : dict,
    _find_neighbors
      (parse_arguments SimulationConfig_init
         {| opt_numFixed := Some (-3); opt_numMobile := Some 1;
            opt_simTime := None; opt_distance := None;
            flag_pcap := false; flag_verbose := false;
            opt_discoveryDuration := None; opt_collabDuration := None |})
    = Ok neighbors
    ∧ neighbors !! (mobile, 0) = Some [(0, fixed)]
    ∧ (fixed, 0) ∉ allParticipants (-3) 1.
Proof.
  eexists. split; [by rewrite find_neighbors_run|]. split.
  - by rewrite topology_lookup_mobile.
  - rewrite elem_of_allParticipants. lia.
Qed.

(** * Claims on ports, offsets and senders *)

Lemma collab_servers_after cfg :
  0 ≤ num_fixed_nodes cfg ->
  collab_servers
    (setup_collaboration_phase cfg (assign_ip_addresses cfg).1
       (assign_ip_addresses cfg).2 CollaborationPhaseManager_init).2
  = collab_server_of cfg
      <$> allParticipants (num_fixed_nodes cfg) (num_mobile_nodes cfg).
Proof.
  intros HF. destruct (length_assign_ip_addresses cfg) as [Hfi Hmi].
  rewrite setup_collaboration_phase_run by done. cbv zeta.
  by destruct (decide _).
Qed.

(** C2. For non-negative participant counts and any base port, the
    collaboration servers are installed one per participant, in the
    fixed-then-mobile order, each listening on [collab_base_port +
    globalIndex], where [globalIndex] is the participant's rank in that order
    (fixed [i] has rank [i], mobile [i] has rank [F + i]).  The ports are
    therefore [F + M] pairwise distinct values.  For [F = 2], [M = 4] and base
    port 9000 the ports of Fixed-0, Fixed-1, Mobile-0, Mobile-3 are 9000,
    9001, 9002, 9005. *)
Theorem collab_ports_by_global_index (cfg : SimulationConfig) :
  0 ≤ num_fixed_nodes cfg -> 0 ≤ num_mobile_nodes cfg ->
  forall servers,
    servers = collab_servers
                (setup_collaboration_phase cfg (assign_ip_addresses cfg).1
                   (assign_ip_addresses cfg).2 CollaborationPhaseManager_init).2 ->
    (fun srv => (server_node srv, server_port srv)) <$> servers
    = (fun p => (node_of p,
                 collab_base_port cfg + globalIndex (num_fixed_nodes cfg) p))
        <$> allParticipants (num_fixed_nodes cfg) (num_mobile_nodes cfg)
    ∧ globalIndex (num_fixed_nodes cfg)
        <$> allParticipants (num_fixed_nodes cfg) (num_mobile_nodes cfg)
      = range (num_fixed_nodes cfg + num_mobile_nodes cfg)
    ∧ server_port <$> servers
      = Z.add (collab_base_port cfg)
          <$> range (num_fixed_nodes cfg + num_mobile_nodes cfg)
    ∧ NoDup (server_port <$> servers)
    ∧ length (server_port <$> servers)
      = Z.to_nat (num_fixed_nodes cfg + num_mobile_nodes cfg)
    ∧ (num_fixed_nodes cfg = 2 -> num_mobile_nodes cfg = 4 ->
       collab_base_port cfg = 9000 ->
       (fun srv => (server_node srv, server_port srv)) <$> servers
       = [(NodeGet fixed 0, 9000); (NodeGet fixed 1, 9001);
          (NodeGet mobile 0, 9002); (NodeGet mobile 1, 9003);
          (NodeGet mobile 2, 9004); (NodeGet mobile 3, 9005)]).
Proof.
  intros HF HM servers ->. rewrite collab_servers_after by done.
  assert (server_port
            <$> (collab_server_of cfg
                   <$> allParticipants (num_fixed_nodes cfg) (num_mobile_nodes cfg))
          = Z.add (collab_base_port cfg)
              <$> range (num_fixed_nodes cfg + num_mobile_nodes cfg)) as Hports.
  { rewrite <- globalIndex_allParticipants by done.
    rewrite <- !list_fmap_compose. apply list_fmap_ext.
    intros k p _. simpl. apply collab_port_globalIndex. }
  split_and!.
  - rewrite <- list_fmap_compose. apply list_fmap_ext.
    intros k p _. simpl. by rewrite collab_port_globalIndex.
  - by apply globalIndex_allParticipants.
  - exact Hports.
  - rewrite Hports. apply NoDup_fmap_2; [|apply NoDup_seqZ].
    intros x y. lia.
  - rewrite Hports, length_fmap. apply length_range.
  - intros HF2 HM4 Hbase. rewrite <- list_fmap_compose.
    rewrite HF2, HM4.
    replace (allParticipants 2 4)
      with [(fixed, 0); (fixed, 1); (mobile, 0); (mobile, 1); (mobile, 2);
            (mobile, 3)] by reflexivity.
    simpl. rewrite HF2, Hbase. reflexivity.
Qed.

Lemma collab_ports_by_global_index_witness :
  0 ≤ num_fixed_nodes SimulationConfig_init
  ∧ 0 ≤ num_mobile_nodes SimulationConfig_init
  ∧ (fun srv => (server_node srv, server_port srv))
      <$> collab_servers
            (setup_collaboration_phase SimulationConfig_init
               (assign_ip_addresses SimulationConfig_init).1
               (assign_ip_addresses SimulationConfig_init).2
               CollaborationPhaseManager_init).2
    = [(NodeGet fixed 0, 9000); (NodeGet fixed 1, 9001);
       (NodeGet mobile 0, 9002); (NodeGet mobile 1, 9003);
       (NodeGet mobile 2, 9004); (NodeGet mobile 3, 9005)].
Proof.
  assert (0 ≤ num_fixed_nodes SimulationConfig_init) as HF by (simpl; lia).
  assert (0 ≤ num_mobile_nodes SimulationConfig_init) as HM by (simpl; lia).
  split; [exact HF|]. split; [exact HM|].
  apply (collab_ports_by_global_index SimulationConfig_init HF HM _ eq_refl);
    reflexivity.
Defined.



Lemma fmap_concat {A B} (f : A -> B) (ls : list (list A)) :
  f <$> concat ls = concat ((fun l : list A => f <$> l) <$> ls).
Proof.
  induction ls as [|l ls IH]; simpl; [done|]. by rewrite fmap_app, IH.
Qed.

Lemma node_of_inj : Inj (=) (=) node_of.
Proof. intros [t i] [t' i'] [=]. by subst. Qed.

(** C6. Whenever the neighbour computation returns (participant counts
    being non-negative), the connection setup installs exactly one sender per
    edge [(p, q)] of the topology, on [p], addressed to the endpoint of [q];
    every sender of [p] starts at [p]'s own offset [collab_start +
    globalIndex(p) * 0.3] and stops at [collab_start + collab_duration].  Two
    senders on the same participant therefore start at the same time. *)
Theorem collab_senders_share_offset (cfg : SimulationConfig) (neighbors : dict) :
  0 ≤ num_fixed_nodes cfg ->
  _find_neighbors cfg = Ok neighbors ->
  forall run,
    run = _setup_collab_connections cfg (assign_ip_addresses cfg).1
            (assign_ip_addresses cfg).2 CollaborationPhaseManager_init ->
    run.1 = Ok tt
    ∧ (fun c => (client_node c, client_remote c, client_start c, client_stop c))
        <$> collab_clients run.2
      = concat
          ((fun p =>
              (fun q : Z * NodeType =>
                 (node_of p, collab_endpoint cfg (q.2, q.1),
                  scheduleWindow (collab_start cfg) 0.3
                    (globalIndex (num_fixed_nodes cfg) p),
                  (collab_start cfg + collab_duration cfg)%Q))
                <$> default [] (neighbors !! p))
             <$> allParticipants (num_fixed_nodes cfg) (num_mobile_nodes cfg))
    ∧ (forall c1 c2,
         c1 ∈ collab_clients run.2 -> c2 ∈ collab_clients run.2 ->
         client_node c1 = client_node c2 ->
         client_start c1 = client_start c2
         ∧ client_stop c1 = (collab_start cfg + collab_duration cfg)%Q
         ∧ client_stop c2 = (collab_start cfg + collab_duration cfg)%Q).
Proof.
  intros HF Hrun run ->. rewrite find_neighbors_run in Hrun.
  destruct (decide _) as [|Hok]; [done|]. injection Hrun as <-.
  destruct (length_assign_ip_addresses cfg) as [Hfi Hmi].
  rewrite setup_collab_connections_run by done.
  rewrite decide_False by done.
  cbn [fst snd collab_clients add_collab_clients CollaborationPhaseManager_init].
  rewrite app_nil_l. split_and!.
  - reflexivity.
  - unfold collab_clients_of. rewrite fmap_concat, <- list_fmap_compose.
    f_equal. apply list_fmap_ext. intros k [t i] Hp. simpl.
    apply list_elem_of_lookup_2, elem_of_allParticipants in Hp.
    assert (0 < num_fixed_nodes cfg) as HF' by (destruct t; lia).
    rewrite <- list_fmap_compose.
    apply list_fmap_ext. intros k' q Hq.
    apply list_elem_of_lookup_2 in Hq.
    destruct (edges_from_resolvable _ _ _ _ (t, i) q HF' Hfi Hmi Hq)
      as (Hin & _ & _).
    rewrite <- (collab_client_of_remote cfg (t, i) q HF Hin). reflexivity.
  - intros c1 c2 (p1 & q1 & _ & _ & ->)%elem_of_collab_clients_of
                 (p2 & q2 & _ & _ & ->)%elem_of_collab_clients_of.
    simpl. intros ->%node_of_inj. done.
Qed.

Lemma collab_senders_share_offset_witness :
  0 ≤ num_fixed_nodes SimulationConfig_init
  ∧ exists neighbors : dict,
      _find_neighbors SimulationConfig_init = Ok neighbors
      ∧ Forall2 Qeq
          (client_start
             <$> collab_clients
                   (_setup_collab_connections SimulationConfig_init
                      (assign_ip_addresses SimulationConfig_init).1
                      (assign_ip_addresses SimulationConfig_init).2
                      CollaborationPhaseManager_init).2)
          [25.0; 25.0; 25.0; 25.3; 25.3; 25.3; 25.6; 25.6; 25.9; 25.9;
           26.2; 26.2; 26.5; 26.5]%Q.
Proof.
  assert (0 ≤ num_fixed_nodes SimulationConfig_init) as HF by (simpl; lia).
  split; [exact HF|]. exists (topology 2 4).
  assert (_find_neighbors SimulationConfig_init = Ok (topology 2 4)) as Hrun
    by (vm_compute; reflexivity).
  split; [exact Hrun|].
  destruct (collab_senders_share_offset SimulationConfig_init (topology 2 4)
              HF Hrun _ eq_refl) as (_ & Hclients & _).
  apply (f_equal (fmap (fun x => x.1.2))) in Hclients.
  rewrite <- list_fmap_compose in Hclients.
  change ((fun x : Node * InetSocketAddress * Q * Q => x.1.2)
          ∘ (fun c => (client_node c, client_remote c, client_start c,
                       client_stop c)))
    with client_start in Hclients.
  rewrite Hclients. vm_compute.
  repeat (apply Forall2_cons; split; [reflexivity|]). apply Forall2_nil_2.
Defined.

(** * Further properties of the phases *)

Lemma discovery_phase_result cfg :
  setup_discovery_phase cfg (assign_ip_addresses cfg).1
    (assign_ip_addresses cfg).2 DiscoveryPhaseManager_init
  = if Qeq_bool (discovery_interval cfg) 0
    then (if decide (0 < num_fixed_nodes cfg ∨ 0 < num_mobile_nodes cfg)
          then Raise ZeroDivisionError else Ok tt,
          {| discovery_servers :=
               discovery_server_of cfg
                 <$> allParticipants (num_fixed_nodes cfg) (num_mobile_nodes cfg);
             discovery_clients := [] |})
    else (Ok tt,
          {| discovery_servers :=
               discovery_server_of cfg
                 <$> allParticipants (num_fixed_nodes cfg) (num_mobile_nodes cfg);
             discovery_clients :=
               discovery_client_of cfg
                 <$> allParticipants (num_fixed_nodes cfg) (num_mobile_nodes cfg) |}).
Proof.
  destruct (length_assign_ip_addresses cfg) as [Hfi Hmi].
  rewrite setup_discovery_phase_run by done. cbv zeta.
  by destruct (Qeq_bool (discovery_interval cfg) 0).
Qed.

Lemma collaboration_phase_result cfg :
  0 ≤ num_fixed_nodes cfg ->
  setup_collaboration_phase cfg (assign_ip_addresses cfg).1
    (assign_ip_addresses cfg).2 CollaborationPhaseManager_init
  = if decide (num_fixed_nodes cfg = 0 ∧ 0 < num_mobile_nodes cfg)
    then (Raise ZeroDivisionError,
          {| collab_servers :=
               collab_server_of cfg
                 <$> allParticipants (num_fixed_nodes cfg) (num_mobile_nodes cfg);
             collab_clients := [] |})
    else (Ok tt,
          {| collab_servers :=
               collab_server_of cfg
                 <$> allParticipants (num_fixed_nodes cfg) (num_mobile_nodes cfg);
             collab_clients :=
               collab_clients_of cfg (assign_ip_addresses cfg).1
                 (assign_ip_addresses cfg).2 |}).
Proof.
  intros HF. destruct (length_assign_ip_addresses cfg) as [Hfi Hmi].
  rewrite setup_collaboration_phase_run by done. cbv zeta.
  by destruct (decide _).
Qed.

(** X1. Whatever the configuration, and whether or not the sender part of
    the phase raises, [setup_discovery_phase] leaves exactly one discovery
    server per participant, in the fixed-then-mobile order, every one
    listening on the single discovery port from [discovery_start] to
    [discovery_start + discovery_duration]. *)
Theorem discovery_servers_installed (cfg : SimulationConfig) :
  (fun srv => (server_node srv, server_port srv, server_start srv,
               server_stop srv))
    <$> discovery_servers
          (setup_discovery_phase cfg (assign_ip_addresses cfg).1
             (assign_ip_addresses cfg).2 DiscoveryPhaseManager_init).2
  = (fun p => (node_of p, discovery_port cfg, discovery_start cfg,
               (discovery_start cfg + discovery_duration cfg)%Q))
      <$> allParticipants (num_fixed_nodes cfg) (num_mobile_nodes cfg).
Proof.
  rewrite discovery_phase_result.
  destruct (Qeq_bool (discovery_interval cfg) 0); cbn [snd discovery_servers];
    by rewrite <- list_fmap_compose.
Qed.

(** X2. With a repetition interval equal to zero the packet count
    [discovery_duration / discovery_interval] cannot be computed: as soon as
    there is one participant the discovery phase raises [ZeroDivisionError]
    at its first sender, after all the servers were installed and before any
    sender is; with no participant it returns normally. *)
Theorem discovery_interval_zero (cfg : SimulationConfig) :
  (discovery_interval cfg == 0)%Q ->
  forall run,
    run = setup_discovery_phase cfg (assign_ip_addresses cfg).1
            (assign_ip_addresses cfg).2 DiscoveryPhaseManager_init ->
    (0 < num_fixed_nodes cfg ∨ 0 < num_mobile_nodes cfg ->
     run.1 = Raise ZeroDivisionError)
    ∧ (num_fixed_nodes cfg ≤ 0 -> num_mobile_nodes cfg ≤ 0 -> run.1 = Ok tt)
    ∧ discovery_clients run.2 = []
    ∧ server_node <$> discovery_servers run.2
      = node_of <$> allParticipants (num_fixed_nodes cfg) (num_mobile_nodes cfg).
Proof.
  intros Hint run ->. rewrite discovery_phase_result.
  apply Qeq_bool_iff in Hint. rewrite Hint. cbn [fst snd].
  split_and!.
  - intros Hsome. by rewrite decide_True.
  - intros HF HM. by rewrite decide_False by lia.
  - reflexivity.
  - cbn. by rewrite <- list_fmap_compose.
Qed.

Lemma discovery_interval_zero_witness :
  (discovery_interval (with_discovery_interval SimulationConfig_init 0) == 0)%Q
  ∧ (setup_discovery_phase (with_discovery_interval SimulationConfig_init 0)
       (assign_ip_addresses (with_discovery_interval SimulationConfig_init 0)).1
       (assign_ip_addresses (with_discovery_interval SimulationConfig_init 0)).2
       DiscoveryPhaseManager_init).1
    = Raise ZeroDivisionError.
Proof.
  assert (discovery_interval (with_discovery_interval SimulationConfig_init 0)
          == 0)%Q as Hint by reflexivity.
  split; [exact Hint|].
  apply (discovery_interval_zero
           (with_discovery_interval SimulationConfig_init 0) Hint _ eq_refl).
  left. simpl. lia.
Defined.

Lemma globalIndex_nonneg F M p :
  0 ≤ F -> p ∈ allParticipants F M -> 0 ≤ globalIndex F p.
Proof.
  intros HF. destruct p as [[] i]; intros Hp%elem_of_allParticipants;
    simpl; lia.
Qed.

Lemma inject_Z_nonneg (k : Z) : 0 ≤ k -> (0 <= inject_Z k)%Q.
Proof. intros Hk. change 0%Q with (inject_Z 0). by rewrite <- Zle_Qle. Qed.

(** X5. For a non-negative fixed count, every collaboration sender that
    [setup_collaboration_phase] installs is matched by a collaboration server
    of the same phase: a server on another node than the sender's, listening
    on exactly the sender's destination port, already started when the sender
    starts and stopped at the very time the sender stops.  No other server
    listens on that port. *)
Theorem collab_sender_has_server (cfg : SimulationConfig) :
  0 ≤ num_fixed_nodes cfg ->
  forall run,
    run = setup_collaboration_phase cfg (assign_ip_addresses cfg).1
            (assign_ip_addresses cfg).2 CollaborationPhaseManager_init ->
    forall c, c ∈ collab_clients run.2 ->
      exists srv,
        srv ∈ collab_servers run.2
        ∧ server_port srv = sock_port (client_remote c)
        ∧ server_node srv ≠ client_node c
        ∧ (server_start srv <= client_start c)%Q
        ∧ server_stop srv = client_stop c
        ∧ forall srv', srv' ∈ collab_servers run.2 ->
            server_port srv' = sock_port (client_remote c) -> srv' = srv.
Proof.
  intros HF run -> c. rewrite collaboration_phase_result by done.
  destruct (decide _) as [|Hok]; cbn [snd collab_clients collab_servers];
    [by intros ?%elem_of_nil|].
  intros (p & q & Hp & Hq & ->)%elem_of_collab_clients_of.
  destruct (length_assign_ip_addresses cfg) as [Hfi Hmi].
  assert (0 < num_fixed_nodes cfg) as HF'.
  { destruct p as [t i]. apply elem_of_allParticipants in Hp.
    destruct t; lia. }
  destruct (edges_from_resolvable _ _ _ _ p q HF' Hfi Hmi Hq) as (Hin & Hne & _).
  exists (collab_server_of cfg (q.2, q.1)). split_and!.
  - apply list_elem_of_fmap. by eexists.
  - reflexivity.
  - simpl. intros Heq%node_of_inj. done.
  - simpl. unfold collab_offset.
    pose proof (inject_Z_nonneg _ (globalIndex_nonneg _ _ _ HF Hp)). lra.
  - reflexivity.
  - intros srv' (p' & -> & Hp')%list_elem_of_fmap. simpl.
    rewrite !collab_port_globalIndex. intros Hport. f_equal.
    destruct p' as [[] i'], q as [j []]; simpl in *;
      apply elem_of_allParticipants in Hp', Hin; f_equal; lia.
Qed.

Lemma collab_sender_has_server_witness :
  0 ≤ num_fixed_nodes SimulationConfig_init
  ∧ Forall (fun c =>
              exists srv,
                srv ∈ collab_servers
                        (setup_collaboration_phase SimulationConfig_init
                           (assign_ip_addresses SimulationConfig_init).1
                           (assign_ip_addresses SimulationConfig_init).2
                           CollaborationPhaseManager_init).2
                ∧ server_port srv = sock_port (client_remote c))
      (collab_clients
         (setup_collaboration_phase SimulationConfig_init
            (assign_ip_addresses SimulationConfig_init).1
            (assign_ip_addresses SimulationConfig_init).2
            CollaborationPhaseManager_init).2).
Proof.
  assert (0 ≤ num_fixed_nodes SimulationConfig_init) as HF by (simpl; lia).
  split; [exact HF|]. apply Forall_forall. intros c Hc.
  destruct (collab_sender_has_server SimulationConfig_init HF _ eq_refl c Hc)
    as (srv & Hsrv & Hport & _).
  exists srv. split; [exact Hsrv | exact Hport].
Defined.

(** X6. For a non-negative fixed count, every discovery sender is
    matched by the discovery servers: its destination port is the port every
    discovery server listens on, no server starts after it and every server
    stops exactly when it stops; and the node it sits on runs one of these
    servers. *)
Theorem discovery_sender_has_servers (cfg : SimulationConfig) :
  0 ≤ num_fixed_nodes cfg ->
  forall run,
    run = setup_discovery_phase cfg (assign_ip_addresses cfg).1
            (assign_ip_addresses cfg).2 DiscoveryPhaseManager_init ->
    forall c, c ∈ discovery_clients run.2 ->
      (forall srv, srv ∈ discovery_servers run.2 ->
         server_port srv = sock_port (client_remote c)
         ∧ (server_start srv <= client_start c)%Q
         ∧ server_stop srv = client_stop c)
      ∧ exists srv, srv ∈ discovery_servers run.2
                    ∧ server_node srv = client_node c.
Proof.
  intros HF run -> c. rewrite discovery_phase_result.
  destruct (Qeq_bool _ _); cbn [snd discovery_clients discovery_servers];
    [by intros ?%elem_of_nil|].
  intros (p & -> & Hp)%list_elem_of_fmap. split.
  - intros srv (p' & -> & _)%list_elem_of_fmap. simpl. split_and!; try done.
    pose proof (inject_Z_nonneg _ (globalIndex_nonneg _ _ _ HF Hp)). lra.
  - exists (discovery_server_of cfg p). split; [|done].
    apply list_elem_of_fmap. by eexists.
Qed.

Lemma discovery_sender_has_servers_witness :
  0 ≤ num_fixed_nodes SimulationConfig_init
  ∧ Forall (fun c =>
              exists srv,
                srv ∈ discovery_servers
                        (setup_discovery_phase SimulationConfig_init
                           (assign_ip_addresses SimulationConfig_init).1
                           (assign_ip_addresses SimulationConfig_init).2
                           DiscoveryPhaseManager_init).2
                ∧ server_node srv = client_node c)
      (discovery_clients
         (setup_discovery_phase SimulationConfig_init
            (assign_ip_addresses SimulationConfig_init).1
            (assign_ip_addresses SimulationConfig_init).2
            DiscoveryPhaseManager_init).2).
Proof.
  assert (0 ≤ num_fixed_nodes SimulationConfig_init) as HF by (simpl; lia).
  split; [exact HF|]. apply Forall_forall. intros c Hc.
  destruct (discovery_sender_has_servers SimulationConfig_init HF _ eq_refl
              c Hc) as [_ Hsrv].
  exact Hsrv.
Defined.

(** * Further properties of the neighbour topology *)

Lemma filter_seqZ_none (P : Z -> Prop) {HP : forall j, Decision (P j)} a n :
  (forall j, a ≤ j < a + n -> ¬ P j) -> filter P (seqZ a n) = [].
Proof.
  intros Hnone. apply elem_of_nil_inv. intros j [Hj Hin]%list_elem_of_filter.
  apply elem_of_seqZ in Hin. by apply (Hnone j).
Qed.

Lemma seqZ_singleton a : seqZ a 1 = [a].
Proof. rewrite seqZ_cons by lia. by rewrite seqZ_nil by lia. Qed.

Lemma adjacent_fixed_filter F i :
  0 ≤ i < F ->
  filter (fun j => i ≠ j ∧ Z.abs (i - j) ≤ 1) (range F)
  = (if decide (0 < i) then [i - 1] else [])
    ++ (if decide (i + 1 < F) then [i + 1] else []).
Proof.
  intros Hi. unfold range.
  replace F with (i + (1 + (F - i - 1))) at 1 by lia.
  rewrite seqZ_app, Z.add_0_l by lia. rewrite seqZ_app by lia.
  rewrite seqZ_singleton, !filter_app.
  rewrite (filter_cons_False _ i []) by lia. rewrite filter_nil, app_nil_l.
  f_equal.
  - destruct (decide (0 < i)).
    + assert (seqZ 0 i = seqZ 0 (i - 1) ++ [i - 1]) as ->.
      { trans (seqZ 0 ((i - 1) + 1)); [f_equal; lia|].
        rewrite seqZ_app by lia. by rewrite Z.add_0_l, seqZ_singleton. }
      rewrite filter_app, filter_seqZ_none by lia.
      by rewrite (filter_cons_True _ (i - 1) []) by lia.
    + by rewrite seqZ_nil by lia.
  - destruct (decide (i + 1 < F)).
    + rewrite seqZ_cons by lia.
      rewrite filter_cons_True by lia.
      by rewrite filter_seqZ_none by lia.
    + by rewrite seqZ_nil by lia.
Qed.

Lemma range_min_two M :
  range (Z.min 2 M)
  = (if decide (1 ≤ M) then [0] else []) ++ (if decide (2 ≤ M) then [1] else []).
Proof.
  unfold range. destruct (decide (1 ≤ M)), (decide (2 ≤ M)); try lia.
  - by replace (Z.min 2 M) with 2 by lia.
  - by replace (Z.min 2 M) with 1 by lia.
  - by rewrite seqZ_nil by lia.
Qed.

Lemma next_mobile_explicit M i :
  0 ≤ i < M -> (i + 1) `mod` M = if decide (i + 1 = M) then 0 else i + 1.
Proof.
  intros Hi. destruct (decide (i + 1 = M)) as [->|Hne].
  - apply Z_mod_same_full.
  - apply Z.mod_small. lia.
Qed.

(** X7. For a fixed participant [i] the row is, in this order: its lower
    chain neighbour [i - 1] unless [i] is the first fixed node, its upper
    chain neighbour [i + 1] unless [i] is the last one, then mobile 0 if
    there is a mobile participant and mobile 1 if there are two.  A single
    fixed node has no fixed neighbour, and no row has more than four
    entries. *)
Theorem fixed_neighbors_explicit (cfg : SimulationConfig) (i : Z) :
  0 ≤ i < num_fixed_nodes cfg ->
  exists neighbors : dict,
    _find_neighbors cfg = Ok neighbors
    ∧ neighbors !! (fixed, i)
      = Some ((if decide (0 < i) then [(i - 1, fixed)] else [])
              ++ (if decide (i + 1 < num_fixed_nodes cfg)
                  then [(i + 1, fixed)] else [])
              ++ (if decide (1 ≤ num_mobile_nodes cfg)
                  then [(0, mobile)] else [])
              ++ (if decide (2 ≤ num_mobile_nodes cfg)
                  then [(1, mobile)] else [])).
Proof.
  intros Hi. eexists. split.
  - rewrite find_neighbors_run. by rewrite decide_False by lia.
  - rewrite topology_lookup_fixed. rewrite decide_True by done.
    unfold fixed_row. rewrite adjacent_fixed_filter, range_min_two by done.
    rewrite !fmap_app, <- !app_assoc.
    by repeat destruct (decide _).
Qed.

Lemma fixed_neighbors_explicit_witness :
  0 ≤ 1 < num_fixed_nodes SimulationConfig_init
  ∧ exists neighbors : dict,
      _find_neighbors SimulationConfig_init = Ok neighbors
      ∧ neighbors !! (fixed, 1) = Some [(0, fixed); (0, mobile); (1, mobile)].
Proof.
  assert (0 ≤ 1 < num_fixed_nodes SimulationConfig_init) as Hi by (simpl; lia).
  split; [exact Hi|].
  destruct (fixed_neighbors_explicit SimulationConfig_init 1 Hi)
    as (neighbors & Hrun & Hrow).
  exists neighbors. split; [exact Hrun | exact Hrow].
Defined.

(** X8. For a mobile participant [i] (with at least one fixed node) the row
    starts with the fixed node [i mod F], a valid fixed index, followed by
    the next mobile participant, [i + 1] or 0 after the last one; with a
    single mobile participant the successor would be the participant itself
    and is left out, so the row has the fixed entry only. *)
Theorem mobile_neighbors_explicit (cfg : SimulationConfig) (i : Z) :
  1 ≤ num_fixed_nodes cfg -> 0 ≤ i < num_mobile_nodes cfg ->
  exists neighbors : dict,
    _find_neighbors cfg = Ok neighbors
    ∧ 0 ≤ i `mod` num_fixed_nodes cfg < num_fixed_nodes cfg
    ∧ neighbors !! (mobile, i)
      = Some ((i `mod` num_fixed_nodes cfg, fixed)
              :: (if decide (num_mobile_nodes cfg = 1) then []
                  else [(if decide (i + 1 = num_mobile_nodes cfg)
                         then 0 else i + 1, mobile)])).
Proof.
  intros HF Hi. eexists. split; [|split].
  - rewrite find_neighbors_run. by rewrite decide_False by lia.
  - apply Z.mod_pos_bound. lia.
  - rewrite topology_lookup_mobile. rewrite decide_True by done.
    unfold mobile_row. rewrite next_mobile_explicit by done.
    repeat destruct (decide _); try lia; reflexivity.
Qed.

Lemma mobile_neighbors_explicit_witness :
  1 ≤ num_fixed_nodes SimulationConfig_init
  ∧ 0 ≤ 3 < num_mobile_nodes SimulationConfig_init
  ∧ exists neighbors : dict,
      _find_neighbors SimulationConfig_init = Ok neighbors
      ∧ neighbors !! (mobile, 3) = Some [(1, fixed); (0, mobile)].
Proof.
  assert (1 ≤ num_fixed_nodes SimulationConfig_init) as HF by (simpl; lia).
  assert (0 ≤ 3 < num_mobile_nodes SimulationConfig_init) as Hi by (simpl; lia).
  split; [exact HF|]. split; [exact Hi|].
  destruct (mobile_neighbors_explicit SimulationConfig_init 3 HF Hi)
    as (neighbors & Hrun & _ & Hrow).
  exists neighbors. split; [exact Hrun | exact Hrow].
Defined.

(** X9. The fixed chain is symmetric: fixed [j] is in the row of fixed [i]
    exactly when fixed [i] is in the row of fixed [j].  The edges from fixed
    to mobile participants are not: every fixed participant has an edge to
    mobile 0 (and to mobile 1 when it exists), but that mobile participant
    has an edge back only to the fixed participant [j mod F]. *)
Theorem chain_symmetric_mobile_not (cfg : SimulationConfig) (neighbors : dict) :
  _find_neighbors cfg = Ok neighbors ->
  (forall i j row_i row_j,
     neighbors !! (fixed, i) = Some row_i ->
     neighbors !! (fixed, j) = Some row_j ->
     ((j, fixed) ∈ row_i <-> (i, fixed) ∈ row_j))
  ∧ (forall i j row_i row_j,
       neighbors !! (fixed, i) = Some row_i ->
       neighbors !! (mobile, j) = Some row_j ->
       0 ≤ j < Z.min 2 (num_mobile_nodes cfg) ->
       (j, mobile) ∈ row_i
       ∧ ((i, fixed) ∈ row_j <-> i = j `mod` num_fixed_nodes cfg)).
Proof.
  intros Hrun. rewrite find_neighbors_run in Hrun.
  destruct (decide _) as [|Hok]; [done|]. injection Hrun as <-. split.
  - intros i j row_i row_j Hi Hj.
    apply topology_row in Hi as (Hpi%elem_of_allParticipants & _ & Hi).
    apply topology_row in Hj as (Hpj%elem_of_allParticipants & _ & Hj).
    rewrite Hi, Hj. simpl. lia.
  - intros i j row_i row_j Hi Hj Hjm.
    apply topology_row in Hi as (_ & _ & Hi).
    apply topology_row in Hj as (_ & _ & Hj).
    rewrite Hi, Hj. simpl. done.
Qed.

Lemma chain_symmetric_mobile_not_witness :
  exists neighbors : dict,
    _find_neighbors SimulationConfig_init = Ok neighbors
    ∧ (0, mobile) ∈ default [] (neighbors !! (fixed, 1))
    ∧ (1, fixed) ∉ default [] (neighbors !! (mobile, 0)).
Proof.
  exists (topology 2 4).
  assert (_find_neighbors SimulationConfig_init = Ok (topology 2 4)) as Hrun
    by (vm_compute; reflexivity).
  assert (topology 2 4 !! (fixed, 1) = Some (fixed_row 2 4 1)) as H1
    by (by rewrite topology_lookup_fixed).
  assert (topology 2 4 !! (mobile, 0) = Some (mobile_row 2 4 0)) as H0
    by (by rewrite topology_lookup_mobile).
  split; [exact Hrun|].
  destruct (chain_symmetric_mobile_not SimulationConfig_init _ Hrun)
    as [_ Hmob].
  destruct (Hmob 1 0 _ _ H1 H0) as [Hin Hback]; [simpl; lia|].
  rewrite H1, H0. split; [exact Hin|].
  intros Habs. apply Hback in Habs. discriminate Habs.
Defined.

(** X10. With at least two mobile participants the mobile-to-mobile edges
    form one ring: mobile [j] is in the row of mobile [i] exactly when [i]
    is the predecessor [(j - 1) mod M] of [j], so every mobile participant
    has exactly one mobile successor and one mobile predecessor, never
    itself. *)
Theorem mobile_ring (cfg : SimulationConfig) (neighbors : dict) :
  _find_neighbors cfg = Ok neighbors ->
  2 ≤ num_mobile_nodes cfg ->
  forall i j row_i,
    0 ≤ j < num_mobile_nodes cfg ->
    neighbors !! (mobile, i) = Some row_i ->
    ((j, mobile) ∈ row_i <-> i = (j - 1) `mod` num_mobile_nodes cfg)
    ∧ (i, mobile) ∉ row_i.
Proof.
  intros Hrun HM i j row_i Hj Hi. rewrite find_neighbors_run in Hrun.
  destruct (decide _) as [|Hok]; [done|]. injection Hrun as <-.
  apply topology_row in Hi as (Hpi%elem_of_allParticipants & _ & Hi).
  rewrite !Hi. simpl.
  rewrite next_mobile_explicit by done.
  assert ((j - 1) `mod` num_mobile_nodes cfg
          = if decide (j = 0) then num_mobile_nodes cfg - 1 else j - 1) as ->.
  { destruct (decide (j = 0)) as [->|].
    - replace (0 - 1) with (-1 * num_mobile_nodes cfg
                            + (num_mobile_nodes cfg - 1)) by lia.
      rewrite Z.add_comm, Z.mod_add by lia. apply Z.mod_small. lia.
    - apply Z.mod_small. lia. }
  repeat destruct (decide _); lia.
Qed.

Lemma mobile_ring_witness :
  2 ≤ num_mobile_nodes SimulationConfig_init
  ∧ exists neighbors : dict,
      _find_neighbors SimulationConfig_init = Ok neighbors
      ∧ (0, mobile) ∈ default [] (neighbors !! (mobile, 3)).
Proof.
  assert (2 ≤ num_mobile_nodes SimulationConfig_init) as HM by (simpl; lia).
  split; [exact HM|]. exists (topology 2 4).
  assert (_find_neighbors SimulationConfig_init = Ok (topology 2 4)) as Hrun
    by (vm_compute; reflexivity).
  assert (topology 2 4 !! (mobile, 3) = Some (mobile_row 2 4 3)) as H3
    by (by rewrite topology_lookup_mobile).
  split; [exact Hrun|]. rewrite H3.
  apply (mobile_ring SimulationConfig_init _ Hrun HM 3 0 _); simpl;
    [lia | exact H3 | reflexivity].
Defined.

Lemma sumZ_app f l1 l2 : sumZ f (l1 ++ l2) = sumZ f l1 + sumZ f l2.
Proof. induction l1 as [|i l1 IH]; simpl; [done|]. rewrite IH. lia. Qed.

Lemma sumZ_ext f g l : (forall i, i ∈ l -> f i = g i) -> sumZ f l = sumZ g l.
Proof.
  induction l as [|i l IH]; intros Hfg; simpl; [done|].
  rewrite Hfg by left. rewrite IH; [done|]. intros k Hk. apply Hfg. by right.
Qed.

Lemma sumZ_const c l : sumZ (fun _ => c) l = c * Z.of_nat (length l).
Proof. induction l as [|i l IH]; simpl; [lia|]. rewrite IH. lia. Qed.

Lemma sumZ_plus f g l : sumZ (fun i => f i + g i) l = sumZ f l + sumZ g l.
Proof. induction l as [|i l IH]; simpl; [done|]. rewrite IH. lia. Qed.

Lemma length_concat_sumZ {A} (g : Z -> list A) l :
  Z.of_nat (length (concat (g <$> l))) = sumZ (fun i => Z.of_nat (length (g i))) l.
Proof.
  induction l as [|i l IH]; [done|].
  rewrite fmap_cons. cbn [concat sumZ foldr].
  rewrite length_app, Nat2Z.inj_add, IH. done.
Qed.

Lemma sumZ_seqZ_const c a n :
  0 ≤ n -> forall f, (forall i, a ≤ i < a + n -> f i = c) -> sumZ f (seqZ a n) = c * n.
Proof.
  intros Hn f Hf. rewrite (sumZ_ext f (fun _ => c)).
  - rewrite sumZ_const, length_seqZ. by rewrite Z2Nat.id.
  - intros i Hi%elem_of_seqZ. by apply Hf.
Qed.

Lemma fixed_rows_total F M :
  1 ≤ F -> 0 ≤ M ->
  sumZ (fun i => Z.of_nat (length (edges_from F M (fixed, i)))) (range F)
  = 2 * (F - 1) + F * Z.min 2 M.
Proof.
  intros HF HM.
  rewrite (sumZ_ext _ (fun i => ((if decide (0 < i) then 1 else 0)
                                 + (if decide (i + 1 < F) then 1 else 0))
                                + Z.min 2 M)).
  2:{ intros i Hi%elem_of_range. unfold edges_from.
      rewrite topology_lookup_fixed, decide_True by done. simpl.
      unfold fixed_row. rewrite adjacent_fixed_filter by done.
      rewrite length_app, !length_fmap, length_app, length_range.
      repeat destruct (decide _); simpl; lia. }
  rewrite !sumZ_plus.
  assert (sumZ (fun i => if decide (0 < i) then 1 else 0) (range F) = F - 1) as ->.
  { unfold range. rewrite seqZ_cons by lia. simpl.
    rewrite (sumZ_seqZ_const 1) by (intros; try rewrite decide_True; lia). lia. }
  assert (sumZ (fun i => if decide (i + 1 < F) then 1 else 0) (range F) = F - 1)
    as ->.
  { assert (range F = seqZ 0 (F - 1) ++ [F - 1]) as ->.
    { unfold range. trans (seqZ 0 ((F - 1) + 1)); [f_equal; lia|].
      rewrite seqZ_app by lia. by rewrite Z.add_0_l, seqZ_singleton. }
    rewrite sumZ_app. simpl.
    rewrite (sumZ_seqZ_const 1) by (intros; try rewrite decide_True; lia).
    rewrite decide_False by lia. lia. }
  rewrite sumZ_const, length_range. rewrite Z2Nat.id by lia. lia.
Qed.

Lemma mobile_rows_total F M :
  1 ≤ F -> 0 ≤ M ->
  sumZ (fun i => Z.of_nat (length (edges_from F M (mobile, i)))) (range M)
  = if decide (M = 1) then 1 else 2 * M.
Proof.
  intros HF HM.
  rewrite (sumZ_ext _ (fun _ => if decide (M = 1) then 1 else 2)).
  - rewrite sumZ_const, length_range. rewrite Z2Nat.id by lia.
    destruct (decide (M = 1)); lia.
  - intros i Hi%elem_of_range. unfold edges_from.
    rewrite topology_lookup_mobile, decide_True by done. simpl.
    unfold mobile_row. rewrite next_mobile_explicit by done.
    repeat destruct (decide _); simpl; lia.
Qed.

(** X11. With at least one fixed node the connection setup installs one
    sender per edge, in all [2 (F - 1)] senders along the fixed chain,
    [F * min(2, M)] from fixed to mobile participants, and from the mobile
    participants one each when there is a single one and two each
    otherwise. *)
Theorem collab_sender_count (cfg : SimulationConfig) :
  1 ≤ num_fixed_nodes cfg -> 0 ≤ num_mobile_nodes cfg ->
  forall run,
    run = _setup_collab_connections cfg (assign_ip_addresses cfg).1
            (assign_ip_addresses cfg).2 CollaborationPhaseManager_init ->
    run.1 = Ok tt
    ∧ Z.of_nat (length (collab_clients run.2))
      = 2 * (num_fixed_nodes cfg - 1)
        + num_fixed_nodes cfg * Z.min 2 (num_mobile_nodes cfg)
        + (if decide (num_mobile_nodes cfg = 1) then 1
           else 2 * num_mobile_nodes cfg).
Proof.
  intros HF HM run ->.
  destruct (length_assign_ip_addresses cfg) as [Hfi Hmi].
  rewrite setup_collab_connections_run by (done || lia).
  rewrite decide_False by lia.
  cbn [fst snd collab_clients add_collab_clients CollaborationPhaseManager_init].
  split; [done|]. rewrite app_nil_l.
  unfold collab_clients_of, allParticipants.
  rewrite fmap_app, concat_app, length_app, Nat2Z.inj_add.
  rewrite <- !list_fmap_compose.
  rewrite !(length_concat_sumZ _ (range _)).
  rewrite <- fixed_rows_total, <- (mobile_rows_total (num_fixed_nodes cfg))
    by done.
  f_equal; apply sumZ_ext; intros i _; simpl; by rewrite length_fmap.
Qed.

Lemma collab_sender_count_witness :
  1 ≤ num_fixed_nodes SimulationConfig_init
  ∧ 0 ≤ num_mobile_nodes SimulationConfig_init
  ∧ Z.of_nat
      (length
         (collab_clients
            (_setup_collab_connections SimulationConfig_init
               (assign_ip_addresses SimulationConfig_init).1
               (assign_ip_addresses SimulationConfig_init).2
               CollaborationPhaseManager_init).2))
    = 14.
Proof.
  assert (1 ≤ num_fixed_nodes SimulationConfig_init) as HF by (simpl; lia).
  assert (0 ≤ num_mobile_nodes SimulationConfig_init) as HM by (simpl; lia).
  split; [exact HF|]. split; [exact HM|].
  destruct (collab_sender_count SimulationConfig_init HF HM _ eq_refl)
    as [_ Hcount].
  exact Hcount.
Defined.

(** * Further properties of the command line *)

(** X15. On the command line a flag can only switch its setting on: with
    the default configuration, where [verbose] is already true, every command
    line leaves verbose logging on (the [--verbose] flag changes nothing),
    and PCAP tracing is on exactly when [--pcap] is given.  Parsing the same
    command line again changes nothing, and parsing an empty command line
    returns the configuration it started from. *)
Theorem parse_arguments_flags (self : SimulationConfig) (argv : CommandLine) :
  verbose (parse_arguments SimulationConfig_init argv) = true
  ∧ enable_pcap (parse_arguments SimulationConfig_init argv) = flag_pcap argv
  ∧ (verbose self = true -> verbose (parse_arguments self argv) = true)
  ∧ parse_arguments (parse_arguments self argv) argv = parse_arguments self argv
  ∧ parse_arguments self argv_empty = self.
Proof.
  split_and!.
  - simpl. by destruct (flag_verbose argv).
  - simpl. by destruct (flag_pcap argv).
  - intros Hv. simpl. rewrite Hv. by destruct (flag_verbose argv).
  - unfold parse_arguments. cbn.
    destruct argv as [[] [] [] [] [] [] [] []]; reflexivity.
  - by destruct self as [? ? ? ? [] [] ? ? ? ? ? ? ? ? ? ?].
Qed.

(** X16. For every command line with non-negative node counts and at
    least one node, the collaboration servers listen on the ports 9000,
    9001, ... in participant order; none of them is the discovery port 8000,
    and all of them fit an unsigned 16-bit port exactly when there are at
    most 56536 nodes.  No check bounds the node counts. *)
Theorem collab_ports_fit_iff (argv : CommandLine) :
  0 ≤ default 2 (opt_numFixed argv) -> 0 ≤ default 4 (opt_numMobile argv) ->
  1 ≤ default 2 (opt_numFixed argv) + default 4 (opt_numMobile argv) ->
  forall servers,
    servers = collab_servers
                (setup_collaboration_phase
                   (parse_arguments SimulationConfig_init argv)
                   (assign_ip_addresses
                      (parse_arguments SimulationConfig_init argv)).1
                   (assign_ip_addresses
                      (parse_arguments SimulationConfig_init argv)).2
                   CollaborationPhaseManager_init).2 ->
    (forall srv, srv ∈ servers ->
       9000 ≤ server_port srv
       ∧ server_port srv
         ≠ discovery_port (parse_arguments SimulationConfig_init argv))
    ∧ ((forall srv, srv ∈ servers -> server_port srv ≤ 65535)
       <-> default 2 (opt_numFixed argv) + default 4 (opt_numMobile argv)
           ≤ 56536).
Proof.
  intros HF HM Hsome servers ->.
  set (cfg := parse_arguments SimulationConfig_init argv).
  rewrite collab_servers_after by exact HF.
  assert (forall srv,
            srv ∈ collab_server_of cfg
                    <$> allParticipants (num_fixed_nodes cfg)
                          (num_mobile_nodes cfg) ->
            exists k, 0 ≤ k < default 2 (opt_numFixed argv)
                              + default 4 (opt_numMobile argv)
                      ∧ server_port srv = 9000 + k) as Hport.
  { intros srv (p & -> & Hp)%list_elem_of_fmap. simpl.
    rewrite collab_port_globalIndex. exists (globalIndex (num_fixed_nodes cfg) p).
    split; [|done]. destruct p as [[] i];
      apply elem_of_allParticipants in Hp; simpl in *; lia. }
  split.
  - intros srv Hsrv. destruct (Hport srv Hsrv) as (k & Hk & ->).
    change (discovery_port cfg) with 8000. lia.
  - split.
    + intros Hall.
      assert (exists p, p ∈ allParticipants (num_fixed_nodes cfg)
                              (num_mobile_nodes cfg)
                        ∧ globalIndex (num_fixed_nodes cfg) p
                          = default 2 (opt_numFixed argv)
                            + default 4 (opt_numMobile argv) - 1)
        as (p & Hp & Hlast).
      { destruct (decide (1 ≤ default 4 (opt_numMobile argv))).
        - exists (mobile, default 4 (opt_numMobile argv) - 1). split.
          + apply elem_of_allParticipants. simpl. lia.
          + simpl. lia.
        - exists (fixed, default 2 (opt_numFixed argv) - 1). split.
          + apply elem_of_allParticipants. simpl. lia.
          + simpl. lia. }
      specialize (Hall (collab_server_of cfg p)).
      simpl in Hall. rewrite collab_port_globalIndex, Hlast in Hall.
      change (collab_base_port cfg) with 9000 in Hall.
      assert (9000 + (default 2 (opt_numFixed argv)
                      + default 4 (opt_numMobile argv) - 1) ≤ 65535);
        [|lia].
      apply Hall. apply list_elem_of_fmap. by exists p.
    + intros Hfit srv Hsrv. destruct (Hport srv Hsrv) as (k & Hk & ->). lia.
Qed.

Lemma collab_ports_fit_iff_witness :
  0 ≤ default 2 (opt_numFixed argv_empty)
  ∧ 0 ≤ default 4 (opt_numMobile argv_empty)
  ∧ 1 ≤ default 2 (opt_numFixed argv_empty) + default 4 (opt_numMobile argv_empty)
  ∧ forall srv,
      srv ∈ collab_servers
              (setup_collaboration_phase
                 (parse_arguments SimulationConfig_init argv_empty)
                 (assign_ip_addresses
                    (parse_arguments SimulationConfig_init argv_empty)).1
                 (assign_ip_addresses
                    (parse_arguments SimulationConfig_init argv_empty)).2
                 CollaborationPhaseManager_init).2 ->
      server_port srv ≤ 65535.
Proof.
  assert (0 ≤ default 2 (opt_numFixed argv_empty)) as HF by (simpl; lia).
  assert (0 ≤ default 4 (opt_numMobile argv_empty)) as HM by (simpl; lia).
  assert (1 ≤ default 2 (opt_numFixed argv_empty)
              + default 4 (opt_numMobile argv_empty)) as Hsome by (simpl; lia).
  split; [exact HF|]. split; [exact HM|]. split; [exact Hsome|].
  apply (collab_ports_fit_iff argv_empty HF HM Hsome _ eq_refl).
  simpl. lia.
Defined.

(** X18. The discovery phase reads the interface addresses (for its
    report and for the list [all_addresses] handed to every sender) but
    installs nothing that depends on them: two pairs of interface containers
    with one address per node give the same outcome and the same servers and
    senders, from any starting state. *)
Theorem discovery_ignores_addresses (cfg : SimulationConfig)
    (fi mi fi' mi' : list Ipv4Address) (s : DiscoveryPhaseManager) :
  length fi = Z.to_nat (num_fixed_nodes cfg) ->
  length mi = Z.to_nat (num_mobile_nodes cfg) ->
  length fi' = Z.to_nat (num_fixed_nodes cfg) ->
  length mi' = Z.to_nat (num_mobile_nodes cfg) ->
  setup_discovery_phase cfg fi mi s = setup_discovery_phase cfg fi' mi' s.
Proof.
  intros Hfi Hmi Hfi' Hmi'.
  by rewrite !setup_discovery_phase_run by done.
Qed.

Lemma discovery_ignores_addresses_witness :
  length [Ipv4Address_of "10.1.1.1"; Ipv4Address_of "10.1.1.2"]
  = Z.to_nat (num_fixed_nodes SimulationConfig_init)
  ∧ length (assign_ip_addresses SimulationConfig_init).1
    = Z.to_nat (num_fixed_nodes SimulationConfig_init)
  ∧ setup_discovery_phase SimulationConfig_init
      [Ipv4Address_of "10.1.1.1"; Ipv4Address_of "10.1.1.2"]
      (assign_ip_addresses SimulationConfig_init).2 DiscoveryPhaseManager_init
    = setup_discovery_phase SimulationConfig_init
        (assign_ip_addresses SimulationConfig_init).1
        (assign_ip_addresses SimulationConfig_init).2 DiscoveryPhaseManager_init.
Proof.
  split; [reflexivity|]. split; [reflexivity|].
  apply (discovery_ignores_addresses SimulationConfig_init); reflexivity.
Defined.

(** * The binary64 reading: closed forms *)

Lemma b64_find_neighbors_run (cfg : Binary64.SimulationConfig) :
  Binary64._find_neighbors cfg =
    if decide (Binary64.num_fixed_nodes cfg = 0
               ∧ 0 < Binary64.num_mobile_nodes cfg)
    then Raise ZeroDivisionError
    else Ok (topology (Binary64.num_fixed_nodes cfg)
               (Binary64.num_mobile_nodes cfg)).
Proof.
  pose (exact := {| num_fixed_nodes := Binary64.num_fixed_nodes cfg;
                    num_mobile_nodes := Binary64.num_mobile_nodes cfg;
                    sim_time := 0; distance := 0;
                    enable_pcap := false; verbose := false;
                    discovery_start := 0; discovery_duration := 0;
                    collab_start := 0; collab_duration := 0;
                    discovery_port := 0; collab_base_port := 0;
                    discovery_range := 0; discovery_interval := 0;
                    network_base := ""; network_mask := "" |}).
  change (Binary64._find_neighbors cfg) with (_find_neighbors exact).
  apply (find_neighbors_run exact).
Qed.

Lemma b64_length_assign_ip_addresses cfg :
  length (Binary64.assign_ip_addresses cfg).1
  = Z.to_nat (Binary64.num_fixed_nodes cfg)
  ∧ length (Binary64.assign_ip_addresses cfg).2
    = Z.to_nat (Binary64.num_mobile_nodes cfg).
Proof.
  unfold Binary64.assign_ip_addresses; simpl.
  by rewrite !length_fmap, !length_range.
Qed.

Lemma b64_add_discovery_servers_nil s : Binary64.add_discovery_servers [] s = s.
Proof.
  destruct s. unfold Binary64.add_discovery_servers; simpl.
  by rewrite app_nil_r.
Qed.

Lemma b64_add_discovery_servers_add l1 l2 s :
  Binary64.add_discovery_servers l2 (Binary64.add_discovery_servers l1 s)
  = Binary64.add_discovery_servers (l1 ++ l2) s.
Proof.
  destruct s. unfold Binary64.add_discovery_servers; simpl.
  by rewrite app_assoc.
Qed.

Lemma b64_add_discovery_clients_nil s : Binary64.add_discovery_clients [] s = s.
Proof.
  destruct s. unfold Binary64.add_discovery_clients; simpl.
  by rewrite app_nil_r.
Qed.

Lemma b64_add_discovery_clients_add l1 l2 s :
  Binary64.add_discovery_clients l2 (Binary64.add_discovery_clients l1 s)
  = Binary64.add_discovery_clients (l1 ++ l2) s.
Proof.
  destruct s. unfold Binary64.add_discovery_clients; simpl.
  by rewrite app_assoc.
Qed.

Lemma b64_float_of_int_ok (i : Z) :
  Z.abs i < Binary64.float_int_limit ->
  Binary64.float_of_int i = Ok (Binary64.Z2float i).
Proof. intros Hi. unfold Binary64.float_of_int. by rewrite decide_True. Qed.

Lemma b64_py_mul_int_ok (i : Z) (x : float) :
  Z.abs i < Binary64.float_int_limit ->
  Binary64.py_mul_int i x = Ok (Binary64.Z2float i * x)%float.
Proof.
  intros Hi. unfold Binary64.py_mul_int. by rewrite b64_float_of_int_ok.
Qed.

Lemma b64_create_discovery_client_run cfg node all_addresses start_time s :
  Binary64._create_discovery_client cfg node all_addresses start_time s
  = match Binary64.packet_count cfg with
    | Ok packets =>
        (Ok tt,
         Binary64.add_discovery_clients
           [{| Binary64.client_node := node;
               Binary64.client_remote :=
                 {| sock_addr := Ipv4Address_of "10.1.1.255";
                    sock_port := Binary64.discovery_port cfg |};
               Binary64.MaxPackets := packets;
               Binary64.Interval := Binary64.discovery_interval cfg;
               Binary64.PacketSize := 128;
               Binary64.client_start := start_time;
               Binary64.client_stop :=
                 (Binary64.discovery_start cfg
                  + Binary64.discovery_duration cfg)%float |}] s)
    | Raise e => (Raise e, s)
    end.
Proof.
  unfold Binary64._create_discovery_client, Binary64.packet_count, bind.
  destruct (Binary64.py_truediv _ _) as [quotient|e]; simpl; [|done].
  destruct (Binary64.py_int quotient) as [packets|e]; simpl; done.
Qed.

Lemma b64_packet_count_exn cfg e :
  Binary64.packet_count cfg = Raise e ->
  e = ZeroDivisionError ∨ e = ValueError ∨ e = OverflowError.
Proof.
  unfold Binary64.packet_count, Binary64.py_truediv, Binary64.py_int.
  destruct (_ =? _)%float; [intros [= <-]; by left|].
  destruct (Prim2SF _); intros [= <-]; tauto.
Qed.

Lemma b64_discovery_server_loop cfg t n (interfaces : list Ipv4Address) s :
  length interfaces = Z.to_nat n ->
  for_each (range n) (fun i =>
    addr <- GetAddress interfaces i ;;
    Binary64._create_discovery_server cfg (NodeGet t i) addr) s
  = (Ok tt, Binary64.add_discovery_servers
              (Binary64.discovery_server_of cfg <$> (pair t <$> range n)) s).
Proof.
  intros Hlen.
  rewrite (for_each_fold _ _
    (fun i => Binary64.add_discovery_servers
                [Binary64.discovery_server_of cfg (t, i)])).
  - f_equal. rewrite <- list_fmap_compose.
    apply (foldl_add_fmap Binary64.add_discovery_servers).
    + apply b64_add_discovery_servers_nil.
    + apply b64_add_discovery_servers_add.
  - intros i Hi s'. apply elem_of_range in Hi. unfold bind.
    destruct (GetAddress_in_range interfaces i s') as (a & _ & ->); [lia..|].
    reflexivity.
Qed.

Lemma b64_discovery_client_loop cfg packets t n
    (all_addresses : list Ipv4Address) s :
  Binary64.packet_count cfg = Ok packets ->
  (forall i, 0 ≤ i < n ->
     Z.abs (globalIndex (Binary64.num_fixed_nodes cfg) (t, i))
     < Binary64.float_int_limit) ->
  for_each (range n) (fun i =>
    offset <- Binary64.lift
                (Binary64.py_mul_int
                   (globalIndex (Binary64.num_fixed_nodes cfg) (t, i)) 0.2) ;;
    Binary64._create_discovery_client cfg (NodeGet t i) all_addresses
      (Binary64.discovery_start cfg + offset)%float) s
  = (Ok tt, Binary64.add_discovery_clients
              (Binary64.discovery_client_of cfg packets <$> (pair t <$> range n))
              s).
Proof.
  intros Hcount Hidx.
  rewrite (for_each_fold _ _
    (fun i => Binary64.add_discovery_clients
                [Binary64.discovery_client_of cfg packets (t, i)])).
  - f_equal. rewrite <- list_fmap_compose.
    apply (foldl_add_fmap Binary64.add_discovery_clients).
    + apply b64_add_discovery_clients_nil.
    + apply b64_add_discovery_clients_add.
  - intros i Hi%elem_of_range s'. unfold bind.
    rewrite b64_py_mul_int_ok by auto. cbn [Binary64.lift]. unfold ret at 1.
    rewrite b64_create_discovery_client_run, Hcount. reflexivity.
Qed.

Lemma b64_discovery_client_loop_raise cfg e t n
    (all_addresses : list Ipv4Address) s :
  Binary64.packet_count cfg = Raise e ->
  Z.abs (globalIndex (Binary64.num_fixed_nodes cfg) (t, 0))
  < Binary64.float_int_limit ->
  for_each (range n) (fun i =>
    offset <- Binary64.lift
                (Binary64.py_mul_int
                   (globalIndex (Binary64.num_fixed_nodes cfg) (t, i)) 0.2) ;;
    Binary64._create_discovery_client cfg (NodeGet t i) all_addresses
      (Binary64.discovery_start cfg + offset)%float) s
  = (if decide (0 < n) then Raise e else Ok tt, s).
Proof.
  intros Hcount Hidx. destruct (decide (0 < n)).
  - unfold range. rewrite seqZ_cons by done. apply for_each_raise.
    unfold bind. rewrite b64_py_mul_int_ok by done.
    cbn [Binary64.lift]. unfold ret at 1.
    by rewrite b64_create_discovery_client_run, Hcount.
  - by rewrite range_nil by lia.
Qed.

Lemma b64_setup_discovery_phase_run cfg (fi mi : list Ipv4Address) s :
  let F := Binary64.num_fixed_nodes cfg in
  let M := Binary64.num_mobile_nodes cfg in
  length fi = Z.to_nat F -> length mi = Z.to_nat M ->
  0 ≤ F -> 0 ≤ M -> F + M ≤ Binary64.float_int_limit ->
  Binary64.setup_discovery_phase cfg fi mi s =
    let served :=
      Binary64.add_discovery_servers
        (Binary64.discovery_server_of cfg <$> allParticipants F M) s in
    match Binary64.packet_count cfg with
    | Ok packets =>
        (Ok tt,
         Binary64.add_discovery_clients
           (Binary64.discovery_client_of cfg packets <$> allParticipants F M)
           served)
    | Raise e =>
        (if decide (0 < F ∨ 0 < M) then Raise e else Ok tt, served)
    end.
Proof.
  intros F M Hfi Hmi HF HM Hlim. unfold Binary64.setup_discovery_phase.
  fold F M.
  unfold bind at 1. rewrite b64_discovery_server_loop by done.
  unfold bind at 1. rewrite b64_discovery_server_loop by done.
  rewrite b64_add_discovery_servers_add, <- fmap_app.
  fold (allParticipants F M).
  set (served := Binary64.add_discovery_servers _ s).
  unfold bind at 1.
  destruct (collect_ok (range F) (GetAddress fi) served) as [fa ->].
  { intros i Hi%elem_of_range.
    destruct (GetAddress_in_range fi i served) as (a & _ & ->); [lia..|].
    by eexists. }
  unfold bind at 1.
  destruct (collect_ok (range M) (GetAddress mi) served) as [ma ->].
  { intros i Hi%elem_of_range.
    destruct (GetAddress_in_range mi i served) as (a & _ & ->); [lia..|].
    by eexists. }
  cbv zeta.
  pose proof (b64_discovery_client_loop cfg) as Hok.
  pose proof (b64_discovery_client_loop_raise cfg) as Hraise.
  cbv beta iota delta [globalIndex] in Hok, Hraise. fold F in Hok, Hraise.
  destruct (Binary64.packet_count cfg) as [packets|e] eqn:Hcount.
  - unfold bind at 1.
    rewrite (Hok packets fixed F (fa ++ ma) served eq_refl) by (intros; lia).
    rewrite (Hok packets mobile M (fa ++ ma) _ eq_refl) by (intros; lia).
    f_equal. rewrite b64_add_discovery_clients_add, <- fmap_app. reflexivity.
  - unfold bind at 1.
    assert (0 < Binary64.float_int_limit) as Hpos by reflexivity.
    rewrite (Hraise e fixed F (fa ++ ma) served eq_refl) by lia.
    destruct (decide (0 < F)).
    + by rewrite decide_True by lia.
    + assert (F = 0) as HF0 by lia.
      rewrite (Hraise e mobile M (fa ++ ma) served eq_refl) by lia.
      destruct (decide (0 < M)).
      * by rewrite decide_True by lia.
      * by rewrite decide_False by lia.
Qed.

Lemma b64_add_collab_clients_nil s : Binary64.add_collab_clients [] s = s.
Proof.
  destruct s. unfold Binary64.add_collab_clients; simpl. by rewrite app_nil_r.
Qed.

Lemma b64_add_collab_clients_add l1 l2 s :
  Binary64.add_collab_clients l2 (Binary64.add_collab_clients l1 s)
  = Binary64.add_collab_clients (l1 ++ l2) s.
Proof.
  destruct s. unfold Binary64.add_collab_clients; simpl. by rewrite app_assoc.
Qed.

Lemma b64_add_collab_servers_nil s : Binary64.add_collab_servers [] s = s.
Proof.
  destruct s. unfold Binary64.add_collab_servers; simpl. by rewrite app_nil_r.
Qed.

Lemma b64_add_collab_servers_add l1 l2 s :
  Binary64.add_collab_servers l2 (Binary64.add_collab_servers l1 s)
  = Binary64.add_collab_servers (l1 ++ l2) s.
Proof.
  destruct s. unfold Binary64.add_collab_servers; simpl. by rewrite app_assoc.
Qed.

Lemma b64_collab_edge_loop cfg fi mi node (idx : Z)
    (row : list (Z * NodeType)) s :
  Z.abs idx < Binary64.float_int_limit ->
  (forall q, q ∈ row -> resolvable fi mi q) ->
  for_each row (fun '(neighbor_idx, neighbor_type) =>
    match neighbor_type with
    | fixed =>
        target_addr <- GetAddress fi neighbor_idx ;;
        offset <- Binary64.lift (Binary64.py_mul_int idx 0.3) ;;
        Binary64._create_collab_client cfg node target_addr
          (Binary64.collab_base_port cfg + neighbor_idx)
          (Binary64.collab_start cfg + offset)%float
    | mobile =>
        target_addr <- GetAddress mi neighbor_idx ;;
        offset <- Binary64.lift (Binary64.py_mul_int idx 0.3) ;;
        Binary64._create_collab_client cfg node target_addr
          (Binary64.collab_base_port cfg + Binary64.num_fixed_nodes cfg
           + neighbor_idx)
          (Binary64.collab_start cfg + offset)%float
    end) s
  = (Ok tt,
     Binary64.add_collab_clients
       (Binary64.collab_client cfg fi mi node
          (Binary64.collab_start cfg + Binary64.Z2float idx * 0.3)%float
          <$> row) s).
Proof.
  intros Hidx Hrow.
  rewrite (for_each_fold _ _
    (fun q => Binary64.add_collab_clients
                [Binary64.collab_client cfg fi mi node
                   (Binary64.collab_start cfg
                    + Binary64.Z2float idx * 0.3)%float q])).
  - f_equal. apply (foldl_add_fmap Binary64.add_collab_clients).
    + apply b64_add_collab_clients_nil.
    + apply b64_add_collab_clients_add.
  - intros [j t] Hq s'. destruct (Hrow _ Hq) as [Hj Hlen]. simpl in Hj, Hlen.
    unfold bind, Binary64.collab_client, address_of; simpl.
    rewrite b64_py_mul_int_ok by done. cbn [Binary64.lift]. unfold ret.
    destruct t.
    + destruct (GetAddress_in_range fi j s') as (a & Ha & ->); [done..|].
      unfold Binary64._create_collab_client, Binary64.collab_clients_Add, modify.
      by rewrite (list_lookup_total_correct _ _ _ Ha).
    + destruct (GetAddress_in_range mi j s') as (a & Ha & ->); [done..|].
      unfold Binary64._create_collab_client, Binary64.collab_clients_Add, modify.
      by rewrite (list_lookup_total_correct _ _ _ Ha).
Qed.

Lemma b64_setup_collab_connections_run cfg (fi mi : list Ipv4Address) s :
  let F := Binary64.num_fixed_nodes cfg in
  let M := Binary64.num_mobile_nodes cfg in
  length fi = Z.to_nat F -> length mi = Z.to_nat M ->
  0 ≤ F -> 0 ≤ M -> F + M ≤ Binary64.float_int_limit ->
  Binary64._setup_collab_connections cfg fi mi s =
    if decide (F = 0 ∧ 0 < M)
    then (Raise ZeroDivisionError, s)
    else (Ok tt,
          Binary64.add_collab_clients (Binary64.collab_clients_of cfg fi mi) s).
Proof.
  intros F M Hfi Hmi HF HM Hlim. unfold Binary64._setup_collab_connections.
  rewrite b64_find_neighbors_run. fold F M. unfold bind at 1.
  destruct (decide (F = 0 ∧ 0 < M)) as [|Hok]; [reflexivity|].
  cbn [Binary64.lift]. unfold ret at 1. unfold bind at 1.
  rewrite (for_each_fold _ _ (fun i =>
    Binary64.add_collab_clients
      (Binary64.collab_client_of cfg fi mi (fixed, i)
         <$> edges_from F M (fixed, i)))).
  2:{ intros i Hi%elem_of_range s'.
      apply (b64_collab_edge_loop cfg fi mi (NodeGet fixed i) i); [lia|].
      intros q Hq. by eapply (edges_from_resolvable F M); [lia|..]. }
  rewrite (for_each_fold _ _ (fun i =>
    Binary64.add_collab_clients
      (Binary64.collab_client_of cfg fi mi (mobile, i)
         <$> edges_from F M (mobile, i)))).
  2:{ intros i Hi%elem_of_range s'.
      apply (b64_collab_edge_loop cfg fi mi (NodeGet mobile i) (F + i)); [lia|].
      intros q Hq. by eapply (edges_from_resolvable F M); [lia|..]. }
  f_equal.
  rewrite !(foldl_add_concat Binary64.add_collab_clients)
    by (apply b64_add_collab_clients_nil || apply b64_add_collab_clients_add).
  rewrite b64_add_collab_clients_add. f_equal.
  unfold Binary64.collab_clients_of, allParticipants. fold F M.
  by rewrite fmap_app, concat_app, <- !list_fmap_compose.
Qed.

Lemma b64_collab_server_loop cfg t n (interfaces : list Ipv4Address) s :
  length interfaces = Z.to_nat n ->
  for_each (range n) (fun i =>
    addr <- GetAddress interfaces i ;;
    Binary64._create_collab_server cfg (NodeGet t i)
      (Binary64.collab_port cfg (t, i)) addr) s
  = (Ok tt,
     Binary64.add_collab_servers
       (Binary64.collab_server_of cfg <$> (pair t <$> range n)) s).
Proof.
  intros Hlen.
  rewrite (for_each_fold _ _
    (fun i => Binary64.add_collab_servers [Binary64.collab_server_of cfg (t, i)])).
  - f_equal. rewrite <- list_fmap_compose.
    apply (foldl_add_fmap Binary64.add_collab_servers).
    + apply b64_add_collab_servers_nil.
    + apply b64_add_collab_servers_add.
  - intros i Hi s'. apply elem_of_range in Hi. unfold bind.
    destruct (GetAddress_in_range interfaces i s') as (a & _ & ->); [lia..|].
    reflexivity.
Qed.

Lemma b64_setup_collaboration_phase_run cfg (fi mi : list Ipv4Address) s :
  let F := Binary64.num_fixed_nodes cfg in
  let M := Binary64.num_mobile_nodes cfg in
  length fi = Z.to_nat F -> length mi = Z.to_nat M ->
  0 ≤ F -> 0 ≤ M -> F + M ≤ Binary64.float_int_limit ->
  Binary64.setup_collaboration_phase cfg fi mi s =
    let served :=
      Binary64.add_collab_servers
        (Binary64.collab_server_of cfg <$> allParticipants F M) s in
    if decide (F = 0 ∧ 0 < M)
    then (Raise ZeroDivisionError, served)
    else (Ok tt,
          Binary64.add_collab_clients (Binary64.collab_clients_of cfg fi mi)
            served).
Proof.
  intros F M Hfi Hmi HF HM Hlim. unfold Binary64.setup_collaboration_phase.
  fold F M.
  pose proof (b64_collab_server_loop cfg fixed F fi s Hfi) as Hfixed.
  cbv beta iota delta [Binary64.collab_port] in Hfixed.
  unfold bind at 1. rewrite Hfixed.
  pose proof (b64_collab_server_loop cfg mobile M mi
                (Binary64.add_collab_servers
                   (Binary64.collab_server_of cfg <$> (pair fixed <$> range F))
                   s) Hmi)
    as Hmobile.
  cbv beta iota delta [Binary64.collab_port] in Hmobile. fold F in Hmobile.
  unfold bind at 1. rewrite Hmobile.
  rewrite b64_add_collab_servers_add, <- fmap_app.
  by apply b64_setup_collab_connections_run.
Qed.

(** ** The whole setup on binary64 *)

Lemma b64_setup_fixed_mobility_run cfg (position_alloc : list Binary64.Vector) :
  Binary64.num_fixed_nodes cfg ≤ Binary64.float_int_limit ->
  Binary64.setup_fixed_mobility cfg position_alloc
  = (Ok tt,
     position_alloc
     ++ (Binary64.fixed_position_of cfg
           <$> range (Binary64.num_fixed_nodes cfg))).
Proof.
  intros Hlim. unfold Binary64.setup_fixed_mobility.
  rewrite (for_each_fold _ _
    (fun i l => l ++ [Binary64.fixed_position_of cfg i])).
  - f_equal.
    apply (foldl_add_fmap (fun l2 l1 : list Binary64.Vector => l1 ++ l2)).
    + apply app_nil_r.
    + intros l1 l2 l. by rewrite app_assoc.
  - intros i Hi%elem_of_range s'. unfold bind.
    rewrite b64_py_mul_int_ok by lia. reflexivity.
Qed.

Lemma b64_setup_by_phases cfg :
  Binary64.num_fixed_nodes cfg ≤ Binary64.float_int_limit ->
  Binary64.setup (Binary64.Simulation_with cfg) =
    let fi := (Binary64.assign_ip_addresses cfg).1 in
    let mi := (Binary64.assign_ip_addresses cfg).2 in
    let d := Binary64.setup_discovery_phase cfg fi mi
               Binary64.DiscoveryPhaseManager_init in
    let c := Binary64.setup_collaboration_phase cfg fi mi
               Binary64.CollaborationPhaseManager_init in
    let positions :=
      Binary64.fixed_position_of cfg <$> range (Binary64.num_fixed_nodes cfg) in
    match d.1 with
    | Ok _ =>
        (c.1, {| Binary64.config := cfg;
                 Binary64.fixed_positions := positions;
                 Binary64.discovery_manager := d.2;
                 Binary64.collab_manager := c.2 |})
    | Raise e =>
        (Raise e, {| Binary64.config := cfg;
                     Binary64.fixed_positions := positions;
                     Binary64.discovery_manager := d.2;
                     Binary64.collab_manager :=
                       Binary64.CollaborationPhaseManager_init |})
    end.
Proof.
  intros Hlim.
  unfold Binary64.setup, Binary64.Simulation_with; cbn [Binary64.config].
  destruct (Binary64.assign_ip_addresses cfg) as [fi mi]; cbn [fst snd].
  unfold bind at 1. unfold Binary64.on_positions at 1.
  cbn [Binary64.config Binary64.fixed_positions Binary64.discovery_manager
       Binary64.collab_manager].
  rewrite b64_setup_fixed_mobility_run by done. rewrite app_nil_l.
  unfold bind, Binary64.on_discovery, Binary64.on_collab;
    cbn [Binary64.config Binary64.fixed_positions Binary64.discovery_manager
         Binary64.collab_manager].
  destruct (Binary64.setup_discovery_phase cfg fi mi _) as [[[]|e] d];
    cbn [fst snd Binary64.config Binary64.fixed_positions
         Binary64.discovery_manager Binary64.collab_manager]; [|reflexivity].
  by destruct (Binary64.setup_collaboration_phase cfg fi mi _) as [r c].
Qed.

Lemma b64_setup_run cfg :
  let F := Binary64.num_fixed_nodes cfg in
  let M := Binary64.num_mobile_nodes cfg in
  0 ≤ F -> 0 ≤ M -> F + M ≤ Binary64.float_int_limit ->
  Binary64.setup (Binary64.Simulation_with cfg) =
    let fi := (Binary64.assign_ip_addresses cfg).1 in
    let mi := (Binary64.assign_ip_addresses cfg).2 in
    let discovery_served :=
      Binary64.add_discovery_servers
        (Binary64.discovery_server_of cfg <$> allParticipants F M)
        Binary64.DiscoveryPhaseManager_init in
    let collab_served :=
      Binary64.add_collab_servers
        (Binary64.collab_server_of cfg <$> allParticipants F M)
        Binary64.CollaborationPhaseManager_init in
    match Binary64.packet_count cfg with
    | Ok packets =>
        let discovered :=
          Binary64.add_discovery_clients
            (Binary64.discovery_client_of cfg packets <$> allParticipants F M)
            discovery_served in
        if decide (F = 0 ∧ 0 < M)
        then (Raise ZeroDivisionError,
              {| Binary64.config := cfg;
                 Binary64.fixed_positions :=
                   Binary64.fixed_position_of cfg <$> range F;
                 Binary64.discovery_manager := discovered;
                 Binary64.collab_manager := collab_served |})
        else (Ok tt,
              {| Binary64.config := cfg;
                 Binary64.fixed_positions :=
                   Binary64.fixed_position_of cfg <$> range F;
                 Binary64.discovery_manager := discovered;
                 Binary64.collab_manager :=
                   Binary64.add_collab_clients
                     (Binary64.collab_clients_of cfg fi mi) collab_served |})
    | Raise e =>
        if decide (0 < F ∨ 0 < M)
        then (Raise e,
              {| Binary64.config := cfg;
                 Binary64.fixed_positions :=
                   Binary64.fixed_position_of cfg <$> range F;
                 Binary64.discovery_manager := discovery_served;
                 Binary64.collab_manager :=
                   Binary64.CollaborationPhaseManager_init |})
        else (Ok tt,
              {| Binary64.config := cfg;
                 Binary64.fixed_positions :=
                   Binary64.fixed_position_of cfg <$> range F;
                 Binary64.discovery_manager := discovery_served;
                 Binary64.collab_manager :=
                   Binary64.add_collab_clients
                     (Binary64.collab_clients_of cfg fi mi) collab_served |})
    end.
Proof.
  intros F M HF HM Hlim. rewrite b64_setup_by_phases by (fold F; lia).
  cbv zeta.
  destruct (b64_length_assign_ip_addresses cfg) as [Hfi Hmi].
  rewrite b64_setup_discovery_phase_run, b64_setup_collaboration_phase_run
    by done.
  fold F M. cbv zeta.
  destruct (Binary64.packet_count cfg) as [packets|e]; cbn [fst snd].
  - by destruct (decide (F = 0 ∧ 0 < M)).
  - destruct (decide (0 < F ∨ 0 < M)); cbn [fst snd]; [done|].
    by rewrite decide_False by lia.
Qed.

Lemma b64_main_setup argv :
  Binary64.main argv
  = Binary64.setup
      (Binary64.Simulation_with
         (Binary64.parse_arguments Binary64.SimulationConfig_init argv)).
Proof. reflexivity. Qed.


Lemma strictly_increasing_app l1 l2 :
  Binary64.strictly_increasing (l1 ++ l2) = true ->
  Binary64.strictly_increasing l1 = true.
Proof.
  induction l1 as [|x [|y l1] IH]; simpl; [done..|].
  intros [Hxy Hrest]%andb_prop. rewrite Hxy. simpl. by apply IH.
Qed.

Lemma range_prefix n m :
  0 ≤ n ≤ m -> range m = range n ++ seqZ n (m - n).
Proof.
  intros H. unfold range.
  replace m with (n + (m - n)) at 1 by lia.
  rewrite seqZ_app by lia. by rewrite Z.add_0_l.
Qed.



(** * Start offsets and packet counts on binary64 *)







(** * The whole run on binary64 *)

(** C4, counterexample. With [--discoveryDuration 30] the discovery window
    ends at 32.0, after the collaboration window has started at 25.0; the
    run is accepted all the same: initialisation and setup return normally
    and install the 6 discovery servers, 6 discovery senders (stopping at
    32.0), 6 collaboration servers and 14 collaboration senders. *)
Lemma overlapping_windows_scheduled :
  let run := Binary64.main (Binary64.argv_discoveryDuration 30.0) in
  let cfg := Binary64.config run.2 in
  (Binary64.collab_start cfg
   <? Binary64.discovery_start cfg + Binary64.discovery_duration cfg)%float
  = true
  ∧ run.1 = Ok tt
  ∧ length (Binary64.discovery_servers (Binary64.discovery_manager run.2)) = 6%nat
  ∧ Binary64.client_stop
      <$> Binary64.discovery_clients (Binary64.discovery_manager run.2)
    = [32.0; 32.0; 32.0; 32.0; 32.0; 32.0]%float
  ∧ length (Binary64.collab_servers (Binary64.collab_manager run.2)) = 6%nat
  ∧ length (Binary64.collab_clients (Binary64.collab_manager run.2)) = 14%nat.
Proof. vm_compute. done. Qed.

(** C4 (corrected). The program checks no window ordering.
    [parse_arguments] stores the command-line duration unchanged and leaves
    the discovery start 2.0, the collaboration start 25.0 and the interval
    2.0; for every command line with at least one fixed node the outcome of
    initialisation and setup depends on [int(discovery_duration / 2.0)]
    alone.  Where that is defined the run raises nothing, whether or not
    the windows overlap, and installs the discovery and collaboration
    servers and senders of every participant, the discovery senders stopping
    at [discovery_start + discovery_duration].  Where it is not (a NaN or an
    infinite duration) the run raises the ValueError or OverflowError of
    [int] while creating the first discovery sender, after the discovery
    servers have been installed. *)
Theorem main_window_unchecked (argv : Binary64.CommandLine) :
  let cfg := Binary64.parse_arguments Binary64.SimulationConfig_init argv in
  let F := Binary64.num_fixed_nodes cfg in
  let M := Binary64.num_mobile_nodes cfg in
  1 ≤ F -> 0 ≤ M -> F + M ≤ Binary64.float_int_limit ->
  let run := Binary64.main argv in
  let discovery := Binary64.discovery_manager run.2 in
  let collab := Binary64.collab_manager run.2 in
  Binary64.discovery_start cfg = 2.0%float
  ∧ Binary64.collab_start cfg = 25.0%float
  ∧ Binary64.discovery_duration cfg
    = default 20.0%float (Binary64.opt_discoveryDuration argv)
  ∧ Binary64.server_node <$> Binary64.discovery_servers discovery
    = node_of <$> allParticipants F M
  ∧ match Binary64.py_int (Binary64.discovery_duration cfg / 2.0)%float with
    | Ok packets =>
        run.1 = Ok tt
        ∧ Binary64.client_node <$> Binary64.discovery_clients discovery
          = node_of <$> allParticipants F M
        ∧ (forall c, c ∈ Binary64.discovery_clients discovery ->
             Binary64.MaxPackets c = packets
             ∧ Binary64.client_stop c
               = (2.0 + Binary64.discovery_duration cfg)%float)
        ∧ Binary64.collab_servers collab
          = Binary64.collab_server_of cfg <$> allParticipants F M
        ∧ Binary64.collab_clients collab
          = Binary64.collab_clients_of cfg
              (Binary64.assign_ip_addresses cfg).1
              (Binary64.assign_ip_addresses cfg).2
    | Raise e =>
        run.1 = Raise e
        ∧ (e = ValueError ∨ e = OverflowError)
        ∧ Binary64.discovery_clients discovery = []
        ∧ collab = Binary64.CollaborationPhaseManager_init
    end.
Proof.
  intros cfg F M HF HM Hlim run discovery collab.
  assert (Binary64.packet_count cfg
          = Binary64.py_int (Binary64.discovery_duration cfg / 2.0)%float)
    as Hcount by reflexivity.
  unfold discovery, collab, run.
  rewrite b64_main_setup. fold cfg. rewrite b64_setup_run by (fold F M; lia).
  fold F M. cbv zeta. rewrite Hcount.
  split_and!; [reflexivity..| |].
  - destruct (Binary64.py_int _); [destruct (decide (F = 0 ∧ 0 < M))|
                                   destruct (decide (0 < F ∨ 0 < M))];
      cbn [snd Binary64.discovery_manager Binary64.discovery_servers
           Binary64.add_discovery_clients Binary64.add_discovery_servers
           Binary64.DiscoveryPhaseManager_init app];
      by rewrite <- list_fmap_compose.
  - destruct (Binary64.py_int _) as [packets|e] eqn:Hint.
    + rewrite decide_False by lia.
      cbn [fst snd Binary64.discovery_manager Binary64.collab_manager
           Binary64.discovery_clients Binary64.collab_servers
           Binary64.collab_clients
           Binary64.add_discovery_clients Binary64.add_discovery_servers
           Binary64.add_collab_clients Binary64.add_collab_servers
           Binary64.DiscoveryPhaseManager_init
           Binary64.CollaborationPhaseManager_init app].
      split_and!; try reflexivity.
      * by rewrite <- list_fmap_compose.
      * by intros c (p & -> & _)%list_elem_of_fmap.
    + rewrite decide_True by lia.
      split_and!; try reflexivity.
      unfold Binary64.py_int in Hint.
      destruct (Prim2SF _); inversion Hint; tauto.
Qed.

Lemma main_window_unchecked_witness :
  let run := Binary64.main (Binary64.argv_discoveryDuration infinity) in
  run.1 = Raise OverflowError
  ∧ length (Binary64.discovery_servers (Binary64.discovery_manager run.2))
    = 6%nat
  ∧ Binary64.discovery_clients (Binary64.discovery_manager run.2) = []
  ∧ Binary64.collab_manager run.2 = Binary64.CollaborationPhaseManager_init.
Proof.
  intros run.
  pose (cfg := Binary64.parse_arguments Binary64.SimulationConfig_init
                 (Binary64.argv_discoveryDuration infinity)).
  assert (1 ≤ Binary64.num_fixed_nodes cfg) as HF by (simpl; lia).
  assert (0 ≤ Binary64.num_mobile_nodes cfg) as HM by (simpl; lia).
  assert (Binary64.num_fixed_nodes cfg + Binary64.num_mobile_nodes cfg
          ≤ Binary64.float_int_limit) as Hlim by (vm_compute; discriminate).
  pose proof (main_window_unchecked
                (Binary64.argv_discoveryDuration infinity) HF HM Hlim) as H.
  cbv zeta in H. destruct H as (_ & _ & _ & Hservers & H).
  change (Binary64.py_int _) with (Raise OverflowError : result Z) in H.
  destruct H as (Hrun & _ & Hclients & Hcollab).
  split_and!; [exact Hrun| |exact Hclients|exact Hcollab].
  pose proof (f_equal length Hservers) as Hlen.
  rewrite !length_fmap in Hlen. exact Hlen.
Defined.

(** X3. For node counts that are not negative (and within the range of
    [float]), setup returns normally unless the packet count
    [int(discovery_duration / discovery_interval)] raises while there is a
    participant, or there are mobile participants and no fixed one.  The
    exceptions it can raise are ZeroDivisionError (a zero interval, or the
    modulo by a zero fixed count), ValueError (a NaN quotient) and
    OverflowError (an infinite quotient); it raises neither KeyError nor
    IndexError. *)
Theorem setup_exceptions (cfg : Binary64.SimulationConfig) :
  let F := Binary64.num_fixed_nodes cfg in
  let M := Binary64.num_mobile_nodes cfg in
  0 ≤ F -> 0 ≤ M -> F + M ≤ Binary64.float_int_limit ->
  let outcome := (Binary64.setup (Binary64.Simulation_with cfg)).1 in
  outcome = match Binary64.packet_count cfg with
            | Raise e => if decide (0 < F ∨ 0 < M) then Raise e else Ok tt
            | Ok _ =>
                if decide (F = 0 ∧ 0 < M) then Raise ZeroDivisionError
                else Ok tt
            end
  ∧ (forall e, outcome = Raise e ->
       e = ZeroDivisionError ∨ e = ValueError ∨ e = OverflowError)
  ∧ ((Binary64.discovery_interval cfg =? 0)%float = true -> 0 < F ∨ 0 < M ->
     outcome = Raise ZeroDivisionError).
Proof.
  intros F M HF HM Hlim outcome.
  assert (outcome = match Binary64.packet_count cfg with
                    | Raise e =>
                        if decide (0 < F ∨ 0 < M) then Raise e else Ok tt
                    | Ok _ =>
                        if decide (F = 0 ∧ 0 < M) then Raise ZeroDivisionError
                        else Ok tt
                    end) as Houtcome.
  { unfold outcome. rewrite b64_setup_run by done. fold F M. cbv zeta.
    destruct (Binary64.packet_count cfg); by destruct (decide _). }
  split_and!.
  - exact Houtcome.
  - intros e. rewrite Houtcome.
    destruct (Binary64.packet_count cfg) as [packets|e'] eqn:Hcount.
    + destruct (decide _); intros [= <-]. by left.
    + destruct (decide _); intros [= <-].
      by apply (b64_packet_count_exn cfg).
  - intros Hzero Hsome. rewrite Houtcome.
    unfold Binary64.packet_count, Binary64.py_truediv. rewrite Hzero.
    by rewrite decide_True.
Qed.

Lemma setup_exceptions_witness :
  (Binary64.setup
     (Binary64.Simulation_with
        (Binary64.with_discovery Binary64.SimulationConfig_init
           2 4 2.0 nan 2.0))).1
  = Raise ValueError.
Proof.
  pose (cfg := Binary64.with_discovery Binary64.SimulationConfig_init
                 2 4 2.0 nan 2.0).
  assert (0 ≤ Binary64.num_fixed_nodes cfg) as HF by (simpl; lia).
  assert (0 ≤ Binary64.num_mobile_nodes cfg) as HM by (simpl; lia).
  assert (Binary64.num_fixed_nodes cfg + Binary64.num_mobile_nodes cfg
          ≤ Binary64.float_int_limit) as Hlim by (vm_compute; discriminate).
  destruct (setup_exceptions cfg HF HM Hlim) as (Houtcome & _).
  refine (eq_trans Houtcome _). reflexivity.
Defined.

(** X4. With mobile participants and no fixed one, setup never completes.
    When the packet count is defined it fails with ZeroDivisionError only in
    the connection step: the discovery servers and senders and the
    collaboration servers of every mobile participant are already installed
    and no collaboration sender is, so the failure leaves a partial
    schedule.  When the packet count raises, setup fails with that
    exception in the discovery phase, with the discovery servers installed
    and nothing else. *)
Theorem no_fixed_partial_schedule (cfg : Binary64.SimulationConfig) :
  let M := Binary64.num_mobile_nodes cfg in
  Binary64.num_fixed_nodes cfg = 0 -> 1 ≤ M -> M ≤ Binary64.float_int_limit ->
  let run := Binary64.setup (Binary64.Simulation_with cfg) in
  let discovery := Binary64.discovery_manager run.2 in
  let collab := Binary64.collab_manager run.2 in
  Binary64.discovery_servers discovery
  = Binary64.discovery_server_of cfg <$> allParticipants 0 M
  ∧ match Binary64.packet_count cfg with
    | Ok packets =>
        run.1 = Raise ZeroDivisionError
        ∧ Binary64.discovery_clients discovery
          = Binary64.discovery_client_of cfg packets <$> allParticipants 0 M
        ∧ Binary64.collab_servers collab
          = Binary64.collab_server_of cfg <$> allParticipants 0 M
        ∧ Binary64.collab_clients collab = []
    | Raise e =>
        run.1 = Raise e
        ∧ Binary64.discovery_clients discovery = []
        ∧ collab = Binary64.CollaborationPhaseManager_init
    end.
Proof.
  intros M HF HM Hlim run discovery collab.
  unfold discovery, collab, run.
  rewrite b64_setup_run by (rewrite ?HF; fold M; lia).
  rewrite HF. fold M. cbv zeta.
  destruct (Binary64.packet_count cfg) as [packets|e].
  - by rewrite decide_True by lia.
  - by rewrite decide_True by lia.
Qed.

Lemma no_fixed_partial_schedule_witness :
  let run := Binary64.main Binary64.argv_no_fixed in
  run.1 = Raise ZeroDivisionError
  ∧ length (Binary64.discovery_servers (Binary64.discovery_manager run.2))
    = 1%nat
  ∧ length (Binary64.discovery_clients (Binary64.discovery_manager run.2))
    = 1%nat
  ∧ length (Binary64.collab_servers (Binary64.collab_manager run.2)) = 1%nat
  ∧ Binary64.collab_clients (Binary64.collab_manager run.2) = [].
Proof.
  intros run.
  pose (cfg := Binary64.parse_arguments Binary64.SimulationConfig_init
                 Binary64.argv_no_fixed).
  assert (Binary64.num_fixed_nodes cfg = 0) as HF by reflexivity.
  assert (1 ≤ Binary64.num_mobile_nodes cfg) as HM by (simpl; lia).
  assert (Binary64.num_mobile_nodes cfg ≤ Binary64.float_int_limit)
    as Hlim by (vm_compute; discriminate).
  pose proof (no_fixed_partial_schedule cfg HF HM Hlim) as H.
  cbv zeta in H. destruct H as (Hservers & H).
  change (Binary64.packet_count cfg) with (Ok 10 : result Z) in H.
  destruct H as (Hrun & Hclients & Hcollab & Hnone).
  split_and!.
  - exact Hrun.
  - exact (f_equal length Hservers).
  - exact (f_equal length Hclients).
  - exact (f_equal length Hcollab).
  - exact Hnone.
Defined.

(** * Positions and collaboration offsets on binary64 *)

Lemma default_positions_exact :
  (fun i => (Binary64.Z2float i * 50.0)%float) <$> range 254
  = (fun i => Binary64.Z2float (50 * i)) <$> range 254.
Proof. vm_compute. reflexivity. Qed.

Lemma default_collab_offsets_increase :
  Binary64.strictly_increasing
    ((fun k => (25.0 + Binary64.Z2float k * 0.3)%float) <$> range 254) = true.
Proof. vm_compute. reflexivity. Qed.

Lemma b64_elem_of_collab_clients_of cfg fi mi c :
  c ∈ Binary64.collab_clients_of cfg fi mi <->
  exists p q,
    p ∈ allParticipants (Binary64.num_fixed_nodes cfg)
          (Binary64.num_mobile_nodes cfg)
    ∧ q ∈ edges_from (Binary64.num_fixed_nodes cfg)
            (Binary64.num_mobile_nodes cfg) p
    ∧ c = Binary64.collab_client_of cfg fi mi p q.
Proof.
  unfold Binary64.collab_clients_of. rewrite elem_of_concat. split.
  - intros (l & (p & -> & Hp)%list_elem_of_fmap & (q & -> & Hq)%list_elem_of_fmap).
    by exists p, q.
  - intros (p & q & Hp & Hq & ->). eexists. split.
    + apply list_elem_of_fmap. by exists p.
    + apply list_elem_of_fmap. by exists q.
Qed.

(** X12. [setup_fixed_mobility] hands the allocator one position per fixed
    node, in index order: node [i] at [(i * distance, 0.0, 0.0)], the
    product rounded to binary64; for a fixed count within the range of
    [float] it raises nothing, whatever the distance.  With the default
    distance 50.0 and up to 254 fixed nodes no product is rounded: the x
    coordinate of node [i] is the integer [50 * i]. *)
Theorem fixed_positions_binary64 (cfg : Binary64.SimulationConfig) :
  let F := Binary64.num_fixed_nodes cfg in
  F ≤ Binary64.float_int_limit ->
  let run := Binary64.setup_fixed_mobility cfg [] in
  run.1 = Ok tt
  ∧ run.2 = (fun i => {| Binary64.vec_x :=
                           (Binary64.Z2float i * Binary64.distance cfg)%float;
                         Binary64.vec_y := 0.0;
                         Binary64.vec_z := 0.0 |}) <$> range F
  ∧ (Binary64.distance cfg = 50.0%float -> F ≤ 254 ->
     Binary64.vec_x <$> run.2
     = (fun i => Binary64.Z2float (50 * i)) <$> range F).
Proof.
  intros F Hlim run. unfold run.
  rewrite b64_setup_fixed_mobility_run by done. fold F.
  cbn [fst snd app]. split_and!; [reflexivity..|].
  intros Hdistance HF. rewrite <- list_fmap_compose.
  apply list_eq. intros n. rewrite !list_lookup_fmap.
  destruct (range F !! n) as [i|] eqn:Hi; [|reflexivity].
  cbn [option_map fmap option_fmap compose Binary64.fixed_position_of
       Binary64.vec_x].
  f_equal. rewrite Hdistance.
  assert (i ∈ range F) as Hin%elem_of_range by by eapply list_elem_of_lookup_2.
  pose proof (f_equal (fun l => l !! Z.to_nat i) default_positions_exact) as H.
  cbv beta in H. rewrite !list_lookup_fmap, lookup_range in H by lia.
  cbn [option_map fmap option_fmap] in H. rewrite Z2Nat.id in H by lia.
  by injection H.
Qed.

Lemma fixed_positions_binary64_witness :
  (Binary64.setup_fixed_mobility Binary64.SimulationConfig_init []).2
  = [{| Binary64.vec_x := 0.0; Binary64.vec_y := 0.0; Binary64.vec_z := 0.0 |};
     {| Binary64.vec_x := 50.0; Binary64.vec_y := 0.0; Binary64.vec_z := 0.0 |}]%float.
Proof.
  assert (Binary64.num_fixed_nodes Binary64.SimulationConfig_init
          ≤ Binary64.float_int_limit) as Hlim by (vm_compute; discriminate).
  destruct (fixed_positions_binary64 Binary64.SimulationConfig_init Hlim)
    as (_ & Hpositions & _).
  refine (eq_trans Hpositions _). vm_compute. reflexivity.
Defined.

(** X17. With at least one fixed node the collaboration phase returns
    normally, and every sender it installs sits on a participant's node and
    starts at the binary64 value [collab_start + k * 0.3], [k] being the
    global index of that participant; it asks for 10000 packets of 1024
    bytes, one per second, and stops at [collab_start + collab_duration].
    For the default start 25.0 and up to 254 participants these offsets
    strictly increase with the global index. *)
Theorem collab_offsets_binary64 (cfg : Binary64.SimulationConfig) :
  let F := Binary64.num_fixed_nodes cfg in
  let M := Binary64.num_mobile_nodes cfg in
  1 ≤ F -> 0 ≤ M -> F + M ≤ Binary64.float_int_limit ->
  let run := Binary64.setup_collaboration_phase cfg
               (Binary64.assign_ip_addresses cfg).1
               (Binary64.assign_ip_addresses cfg).2
               Binary64.CollaborationPhaseManager_init in
  run.1 = Ok tt
  ∧ (forall c, c ∈ Binary64.collab_clients run.2 ->
       exists p, p ∈ allParticipants F M
         ∧ Binary64.client_node c = node_of p
         ∧ Binary64.client_start c
           = Binary64.collab_offset_at cfg (globalIndex F p)
         ∧ Binary64.client_stop c
           = (Binary64.collab_start cfg + Binary64.collab_duration cfg)%float
         ∧ Binary64.MaxPackets c = 10000
         ∧ Binary64.Interval c = 1.0%float
         ∧ Binary64.PacketSize c = 1024)
  ∧ (Binary64.collab_start cfg = 25.0%float -> F + M ≤ 254 ->
     Binary64.strictly_increasing
       (Binary64.collab_offset_at cfg <$> range (F + M)) = true).
Proof.
  intros F M HF HM Hlim run.
  destruct (b64_length_assign_ip_addresses cfg) as [Hfi Hmi].
  unfold run. rewrite b64_setup_collaboration_phase_run by (fold F M; lia).
  fold F M. cbv zeta. rewrite decide_False by lia.
  cbn [fst snd Binary64.collab_clients Binary64.add_collab_clients
       Binary64.add_collab_servers Binary64.CollaborationPhaseManager_init app].
  split_and!.
  - reflexivity.
  - intros c (p & q & Hp & _ & ->)%b64_elem_of_collab_clients_of.
    exists p. by split_and!.
  - intros Hstart Hn.
    apply (strictly_increasing_app _
             (Binary64.collab_offset_at cfg <$> seqZ (F + M) (254 - (F + M)))).
    rewrite <- fmap_app, <- range_prefix by lia.
    unfold Binary64.collab_offset_at. rewrite Hstart.
    exact default_collab_offsets_increase.
Qed.

Lemma collab_offsets_binary64_witness :
  let cfg := Binary64.SimulationConfig_init in
  let run := Binary64.setup_collaboration_phase cfg
               (Binary64.assign_ip_addresses cfg).1
               (Binary64.assign_ip_addresses cfg).2
               Binary64.CollaborationPhaseManager_init in
  run.1 = Ok tt
  ∧ Binary64.strictly_increasing
      (Binary64.collab_offset_at cfg <$> range 6) = true.
Proof.
  intros cfg run.
  assert (1 ≤ Binary64.num_fixed_nodes cfg) as HF by (simpl; lia).
  assert (0 ≤ Binary64.num_mobile_nodes cfg) as HM by (simpl; lia).
  assert (Binary64.num_fixed_nodes cfg + Binary64.num_mobile_nodes cfg
          ≤ Binary64.float_int_limit) as Hlim by (vm_compute; discriminate).
  destruct (collab_offsets_binary64 cfg HF HM Hlim) as (Hok & _ & Hincr).
  split; [exact Hok|].
  apply Hincr; [reflexivity | simpl; lia].
Defined.
